(** * Designer-Dreamith: the style recommendation pipeline of [app.py]

    A shallow embedding of the helper functions and of the two routes
    [/recommend] and [/accessories] of [src/app.py], and the properties of
    the pipeline that follow from the code.

    Conventions of the embedding.
    - A Python [str] is a Rocq [string]; its characters are code points
      below 256.
    - A Python value that may be of any type ([dict.get] results, the
      [image] field of a search result, a decoded JSON member) is a [pyval].
    - Code that may raise returns a [result]; code that talks to the two
      external services runs in the monad [M], which threads the log of the
      calls made so far.  What a service answers is given by an oracle that
      sees this log, so that a service may answer the same request
      differently at different times.
    - [logger] calls have no effect on any value and are left out. *)

From Stdlib Require Import ZArith Ascii String.
From stdpp Require Import base option list gmap strings pretty.

Local Open Scope string_scope.
Local Open Scope list_scope.
Local Open Scope Z_scope.

(** ** Python values and exceptions *)

(** The values a place of unknown type may hold.  A float, a list or a
    dict in such a place does what a [VInt] does in this program: it is true
    or false, and it is not a [str]. *)
Inductive pyval : Type :=
  | VNone
  | VBool (b : bool)
  | VInt (z : Z)
  | VStr (s : string).

Inductive exn : Type :=
  | AttributeError
  | TypeError
  | ValueError
  | KeyError
  | RecursionError
  | JSONDecodeError
  | ServiceError (code : nat).

Inductive result (A : Type) : Type :=
  | Ok (a : A)
  | Raise (e : exn).
Arguments Ok {A} a.
Arguments Raise {A} e.

(** ** The built-ins of [str] the program uses *)

Module Py.

Definition dquote : string := String "034"%char "".
Definition nl : string := String "010"%char "".

(** [str.isspace] on one character: the code points below 256 that Python
    counts as white space (TAB, LF, VT, FF, CR, FS, GS, RS, US, SPACE,
    NEL and NBSP). *)
Definition isspace (c : ascii) : bool :=
  let n := N_of_ascii c in
  ((9 <=? n) && (n <=? 13) || (28 <=? n) && (n <=? 32)
   || (n =? 133) || (n =? 160))%N.

Definition is_empty (s : string) : bool :=
  match s with EmptyString => true | String _ _ => false end.

Fixpoint lstrip (s : string) : string :=
  match s with
  | EmptyString => EmptyString
  | String c s' => if isspace c then lstrip s' else s
  end.

Fixpoint rstrip (s : string) : string :=
  match s with
  | EmptyString => EmptyString
  | String c s' =>
      let r := rstrip s' in
      if isspace c && is_empty r then EmptyString else String c r
  end.

(** [s.strip()] *)
Definition strip (s : string) : string := rstrip (lstrip s).

(** [s.split()]: the maximal runs of characters that are not white space.
    [cur] is the run being read. *)
Fixpoint split_go (cur : string) (s : string) : list string :=
  match s with
  | EmptyString => if is_empty cur then [] else [cur]
  | String c s' =>
      if isspace c
      then (if is_empty cur then split_go "" s' else cur :: split_go "" s')
      else split_go (cur +:+ String c "") s'
  end.

Definition split (s : string) : list string := split_go "" s.

(** [sep.join(l)] on a list of [str] *)
Fixpoint join (sep : string) (l : list string) : string :=
  match l with
  | [] => ""
  | [x] => x
  | x :: rest => x +:+ sep +:+ join sep rest
  end.

(** [s.startswith(p)] *)
Fixpoint startswith (p s : string) : bool :=
  match p, s with
  | EmptyString, _ => true
  | String a p', String b s' => if decide (a = b) then startswith p' s' else false
  | String _ _, EmptyString => false
  end.

(** The truth value of a Python object, as [if x], [x or y] and
    [filter(None, _)] take it. *)
Definition truthy (v : pyval) : bool :=
  match v with
  | VNone => false
  | VBool b => b
  | VInt z => negb (z =? 0)
  | VStr s => negb (is_empty s)
  end.

(** What an f-string puts for [{v}], that is [str(v)]. *)
Definition format (v : pyval) : string :=
  match v with
  | VNone => "None"
  | VBool true => "True"
  | VBool false => "False"
  | VInt z => pretty z
  | VStr s => s
  end.

(** [x or y] on [str] *)
Definition str_or (x y : string) : string := if is_empty x then y else x.

(** [sep.join(l)] on a list of objects: [TypeError] unless all are [str]. *)
Fixpoint as_strs (l : list pyval) : option (list string) :=
  match l with
  | [] => Some []
  | VStr s :: l' => cons s <$> as_strs l'
  | _ :: _ => None
  end.

Definition join_objs (sep : string) (l : list pyval) : result string :=
  match as_strs l with
  | Some ss => Ok (join sep ss)
  | None => Raise TypeError
  end.

(** [[x] * n] for an [int] [n]: empty when [n <= 0]. *)
Definition list_mul {A} (x : A) (n : Z) : list A := replicate (Z.to_nat n) x.

(** [len(l) >= n] *)
Definition len_ge {A} (l : list A) (n : Z) : bool := n <=? Z.of_nat (length l).

End Py.

(** ** Data of the program *)

(** One record of the image search: a [dict] from field names to values. *)
Abbreviation record := (gmap string pyval).

(** What [json.loads] gives on success: an object, or any other JSON value
    (array, string, number, [true], [false], [null]), none of which has a
    [get] method. *)
Inductive jsonval : Type :=
  | JObject (d : gmap string pyval)
  | JOther.

(** The observable part of a [GenerateContentResponse]: the list of
    candidates and the [text] accessor, which may raise. *)
Record gen_response : Type := {
  candidates : list string;
  text : result string
}.

(** The calls made to the outside world. *)
Inductive call : Type :=
  | CDDGS
  | CImages (keywords : string) (max_results : Z)
  | CGenerate (prompt : string) (max_output_tokens : option Z).

Abbreviation log := (list call).

(** The environment of a run: the configuration, the JSON codec, and the
    answers of the two services, each depending on the calls made before. *)
Record env : Type := {
  GEMINI_API_KEY : option string;
  json_loads : string -> result jsonval;
  json_dumps : list (string * pyval) -> string;
  DDGS_enter : log -> result unit;
  ddgs_images : log -> string -> Z -> result (list record);
  generate_content : log -> string -> option Z -> result gen_response
}.

(** [request.form]: the submitted pairs, in order. *)
Abbreviation form := (list (string * string)).

Definition form_getlist (f : form) (k : string) : list string :=
  snd <$> filter (fun p => fst p = k) f.

Definition form_get (f : form) (k : string) (dflt : string) : string :=
  match form_getlist f k with
  | v :: _ => v
  | [] => dflt
  end.

Definition form_contains (f : form) (k : string) : bool :=
  match form_getlist f k with
  | _ :: _ => true
  | [] => false
  end.

(** The keyword arguments of the two templates, and what a route returns. *)
Record recommendation_ctx : Type := {
  rc_query : string;
  rc_image_urls : list string;
  rc_description : string;
  rc_preferences : string;
  rc_accessories_response : option string
}.

Record accessories_ctx : Type := {
  ac_outfit : string;
  ac_accessories : string;
  ac_accessory_images : gmap string pyval
}.

Inductive response : Type :=
  | Redirect (endpoint : string)
  | RenderRecommendation (ctx : recommendation_ctx)
  | RenderAccessories (ctx : accessories_ctx).

(** ** The monad of effectful code

    A computation takes a state and gives a result, normal or exceptional,
    and the state after it: what was done before an exception stays done. *)

Definition M (S A : Type) : Type := S -> result A * S.

Definition ret {S A} (a : A) : M S A := fun s => (Ok a, s).

Definition bind {S A B} (m : M S A) (k : A -> M S B) : M S B :=
  fun s =>
    match m s with
    | (Ok a, s') => k a s'
    | (Raise e, s') => (Raise e, s')
    end.

Definition raise {S A} (e : exn) : M S A := fun s => (Raise e, s).

Definition of_result {S A} (r : result A) : M S A := fun s => (r, s).

(** [try: m except Exception: h] *)
Definition try_except {S A} (m : M S A) (h : exn -> M S A) : M S A :=
  fun s =>
    match m s with
    | (Ok a, s') => (Ok a, s')
    | (Raise e, s') => h e s'
    end.

(** [try: m except json.JSONDecodeError: h] *)
Definition try_except_JSONDecodeError {S A} (m : M S A) (h : M S A) : M S A :=
  fun s =>
    match m s with
    | (Raise JSONDecodeError, s') => h s'
    | other => other
    end.

(** A computation on the log, run where there is a local variable too. *)
Definition with_local {L A} (m : M log A) : M (L * log) A :=
  fun s => let (r, h) := m (snd s) in (r, (fst s, h)).

Definition modify_local {L} (f : L -> L) : M (L * log) unit :=
  fun s => (Ok tt, (f (fst s), snd s)).

(** [for x in l: body x] *)
Fixpoint for_each {S A} (l : list A) (body : A -> M S unit) : M S unit :=
  match l with
  | [] => ret tt
  | x :: l' => bind (body x) (fun _ => for_each l' body)
  end.

Declare Scope py_scope.
Delimit Scope py_scope with py.
Notation "x <- m ;; k" := (bind m (fun x => k))
  (at level 100, m at next level, right associativity) : py_scope.
Notation "m ;;; k" := (bind m (fun _ => k))
  (at level 100, right associativity) : py_scope.
Local Open Scope py_scope.

(** ** The program *)

Section Program.

Variable E : env.

(** *** The services *)

(** [DDGS()] entered by [with] *)
Definition DDGS : M log unit :=
  fun h => (DDGS_enter E h, h ++ [CDDGS]).

(** [ddgs.images(keywords=.., region=.., safesearch=.., layout=..,
    max_results=..)] *)
Definition images (keywords : string) (max_results : Z) : M log (list record) :=
  fun h => (ddgs_images E h keywords max_results, h ++ [CImages keywords max_results]).

(** [genai.GenerativeModel(..).generate_content(prompt, ..)] *)
Definition generate (prompt : string) (max_output_tokens : option Z) : M log gen_response :=
  fun h => (generate_content E h prompt max_output_tokens,
            h ++ [CGenerate prompt max_output_tokens]).

(** *** Helper functions *)

(** [prefs.get(k)], for a [prefs] that came out of [json.loads] *)
Definition get (prefs : jsonval) (k : string) : result pyval :=
  match prefs with
  | JObject d => Ok (default VNone (d !! k))
  | JOther => Raise AttributeError
  end.

Definition rbind {A B} (r : result A) (k : A -> result B) : result B :=
  match r with Ok a => k a | Raise e => Raise e end.

(** [construct_query(prefs)].  The list is built left to right; the
    occasion is read once for the test and once more for the f-string. *)
Definition construct_query (prefs : jsonval) : result string :=
  rbind (get prefs "color") (fun color =>
  rbind (get prefs "style") (fun style =>
  rbind (get prefs "type") (fun type =>
  rbind (get prefs "occasion") (fun occasion =>
  rbind (if Py.truthy occasion
         then rbind (get prefs "occasion") (fun o => Ok (VStr ("for " +:+ Py.format o)))
         else Ok (VStr "")) (fun for_occasion =>
  rbind (get prefs "gender") (fun gender =>
  rbind (Py.join_objs " "
           (filter (fun v => Py.truthy v)
                   [color; style; type; for_occasion; gender])) (fun q =>
  Ok (Py.strip q)))))))).

Definition refine_prompt (raw_query : string) : string :=
  "Refine the following fashion query for concise image search (max 8 keywords). Output ONLY the refined query: "
  +:+ Py.dquote +:+ raw_query +:+ Py.dquote.

Definition refine_query_gemini (raw_query : string) : M log string :=
  try_except
    (response <- generate (refine_prompt raw_query) (Some 60) ;;
     match candidates response with
     | [] => ret raw_query
     | _ :: _ =>
         t <- of_result (text response) ;;
         let refined := Py.strip t in
         ret (Py.str_or (Py.join " " (take 8 (Py.split refined))) raw_query)
     end)
    (fun _ => ret raw_query).

Definition description_fallback : string := "A stylish look for your preferences.".

Definition get_or (prefs : gmap string pyval) (k : string) (dflt : string) : pyval :=
  default (VStr dflt) (prefs !! k).

Definition description_prompt (prefs : gmap string pyval) : string :=
  "Generate a 4-5 line fashion description based on the following preferences:" +:+ Py.nl
  +:+ "Color: " +:+ Py.format (get_or prefs "color" "any")
  +:+ ", Gender: " +:+ Py.format (get_or prefs "gender" "any")
  +:+ ", " +:+ "Type: " +:+ Py.format (get_or prefs "type" "any")
  +:+ ", Occasion: " +:+ Py.format (get_or prefs "occasion" "any")
  +:+ ", Style: " +:+ Py.format (get_or prefs "style" "any")
  +:+ "." +:+ Py.nl +:+ "Write a friendly paragraph, no bullets.".

Definition generate_description (prefs : gmap string pyval) : M log string :=
  try_except
    (response <- generate (description_prompt prefs) None ;;
     match candidates response with
     | _ :: _ => t <- of_result (text response) ;; ret (Py.strip t)
     | [] => ret description_fallback
     end)
    (fun _ => ret description_fallback).

Definition accessories_fallback : string :=
  "Some matching accessories to enhance your look beautifully!".

Definition accessories_prompt (outfit_desc : string) (gender : pyval)
    (items : list string) : string :=
  "Suggest fashionable matching accessories for this outfit:" +:+ Py.nl
  +:+ "Outfit: " +:+ outfit_desc +:+ Py.nl
  +:+ "Gender: " +:+ Py.format gender +:+ Py.nl
  +:+ "Requested Accessories: " +:+ Py.join ", " items +:+ Py.nl +:+ Py.nl
  +:+ "Write a friendly paragraph that recommends stylish matching accessories. "
  +:+ "Include why they go well with the outfit. Keep it elegant and fashion-focused.".

Definition generate_accessories (outfit_desc : string) (gender : pyval)
    (items : list string) : M log string :=
  let prompt := accessories_prompt outfit_desc gender items in
  try_except
    (response <- generate prompt None ;;
     t <- of_result (text response) ;;
     ret (Py.strip t))
    (fun _ => ret accessories_fallback).

Definition get_placeholder_image : string :=
  "https://via.placeholder.com/400x500.png?text=Image+Not+Found".

(** The test of the primary search on one record:
    [isinstance(image_url, str) and image_url.startswith("http")]. *)
Definition http_url (image_url : pyval) : option string :=
  match image_url with
  | VStr s => if Py.startswith "http" s then Some s else None
  | _ => None
  end.

(** The [for result in results] loop of [scrape_duckduckgo_images], with
    its [break]; [images] is the list built so far. *)
Fixpoint scrape_loop (max_images : Z) (results : list record)
    (images : list string) : list string :=
  match results with
  | [] => images
  | result :: rest =>
      let image_url := default VNone (result !! "image") in
      let images :=
        match http_url image_url with
        | Some s => images ++ [s]
        | None => images
        end in
      if Py.len_ge images max_images then images
      else scrape_loop max_images rest images
  end.

Definition scrape_duckduckgo_images (query : string) (max_images : Z)
    : M log (list string) :=
  try_except
    (DDGS ;;;
     results <- images query (max_images * 2) ;;
     let images := scrape_loop max_images results [] in
     ret (match images with
          | _ :: _ => images
          | [] => Py.list_mul get_placeholder_image max_images
          end))
    (fun _ => ret (Py.list_mul get_placeholder_image max_images)).

(** The inner loop of [fetch_accessory_images]: the first record whose
    [image] is true is stored under [item], and the loop is left. *)
Fixpoint store_first (item : string) (results : list record)
    (images : gmap string pyval) : gmap string pyval :=
  match results with
  | [] => images
  | result :: rest =>
      let image_url := default VNone (result !! "image") in
      if Py.truthy image_url then <[item := image_url]> images
      else store_first item rest images
  end.

(** The [for item in accessories_list] loop.  [images] is a local variable
    that the [try] block updates and that is returned after the handler: it
    is the local part of the state. *)
Definition fetch_loop (accessories_list : list string)
    : M (gmap string pyval * log) unit :=
  for_each accessories_list (fun item =>
    results <- with_local (images (item +:+ " accessory") 1) ;;
    modify_local (store_first item results)).

Definition fetch_accessory_images (accessories_list : list string)
    : M log (gmap string pyval) :=
  fun h =>
    let body : M (gmap string pyval * log) unit :=
      try_except
        (with_local DDGS ;;; fetch_loop accessories_list)
        (fun _ => ret tt) in
    match body (∅, h) with
    | (Ok _, (images, h')) => (Ok images, h')
    | (Raise e, (_, h')) => (Raise e, h')
    end.

(** *** The routes *)

(** The items of the [user_preferences] literal, in its order. *)
Definition preference_items (f : form) : list (string * pyval) :=
  [ ("color", VStr (Py.strip (form_get f "color" "")));
    ("gender", VStr (Py.strip (form_get f "gender" "")));
    ("type", VStr (Py.strip (form_get f "type" "")));
    ("occasion", VStr (Py.strip (form_get f "occasion" "")));
    ("style", VStr (Py.strip (form_get f "style" ""))) ].

(** [if GEMINI_API_KEY]: the variable is set and not empty. *)
Definition key_set : bool :=
  match GEMINI_API_KEY E with
  | Some k => negb (Py.is_empty k)
  | None => false
  end.

(** The route [/recommend]. *)
Definition recommend (session : gmap string string) (f : form) : M log response :=
  match session !! "user" with
  | None => ret (Redirect "login")
  | Some _ =>
      let user_preferences : gmap string pyval := list_to_map (preference_items f) in
      raw_query <- of_result (construct_query (JObject user_preferences)) ;;
      refined_query <- (if key_set then refine_query_gemini raw_query else ret raw_query) ;;
      image_urls <- scrape_duckduckgo_images refined_query 5 ;;
      description <- generate_description user_preferences ;;
      accessories_response <-
        (if form_contains f "accessory_items"
         then
           let accessory_items := form_getlist f "accessory_items" in
           gender <- of_result (match user_preferences !! "gender" with
                                | Some g => Ok g
                                | None => Raise KeyError
                                end) ;;
           text <- generate_accessories refined_query gender accessory_items ;;
           ret (Some text)
         else ret None) ;;
      ret (RenderRecommendation
             {| rc_query := refined_query;
                rc_image_urls := image_urls;
                rc_description := description;
                rc_preferences := json_dumps E (preference_items f);
                rc_accessories_response := accessories_response |})
  end.

(** [json.loads(s)]: the value decoded, or the exception of the decoder,
    which is [JSONDecodeError] for a document that is not JSON and may be
    another one ([RecursionError] on deep nesting, [ValueError] on a number
    with too many digits). *)
Definition loads (s : string) : M log jsonval :=
  of_result (json_loads E s).

(** The route [/accessories]. *)
Definition accessories (f : form) : M log response :=
  prefs <- try_except_JSONDecodeError
             (loads (form_get f "preferences" "{}"))
             (ret (JObject ∅)) ;;
  let items := form_getlist f "items" in
  outfit_desc <- of_result (construct_query prefs) ;;
  gender <- of_result (match prefs with
                       | JObject d => Ok (default (VStr "unisex") (d !! "gender"))
                       | JOther => Raise AttributeError
                       end) ;;
  text <- generate_accessories outfit_desc gender items ;;
  accessory_images <- fetch_accessory_images items ;;
  ret (RenderAccessories
         {| ac_outfit := outfit_desc;
            ac_accessories := text;
            ac_accessory_images := accessory_images |}).

End Program.

(** * Definitions used in the statements *)

(** The Query Builder as the specification words it, on a Preference Set
    with its five fields: the phrases in the fixed order, the empty ones
    skipped, one space between two phrases, the whole trimmed. *)
Module Spec.

Record preference_set : Type := {
  color : string;
  gender : string;
  type : string;
  occasion : string;
  style : string
}.

Definition occasion_phrase (p : preference_set) : string :=
  if Py.is_empty (occasion p) then "" else "for " +:+ occasion p.

Fixpoint join_nonempty (phrases : list string) : string :=
  match phrases with
  | [] => ""
  | x :: rest =>
      let r := join_nonempty rest in
      if Py.is_empty x then r
      else if Py.is_empty r then x
      else x +:+ " " +:+ r
  end.

Definition build_query (p : preference_set) : string :=
  Py.strip (join_nonempty [color p; style p; type p; occasion_phrase p; gender p]).

(** The mapping [recommend] builds for a Preference Set. *)
Definition as_dict (p : preference_set) : gmap string pyval :=
  list_to_map
    [ ("color", VStr (color p)); ("gender", VStr (gender p));
      ("type", VStr (type p)); ("occasion", VStr (occasion p));
      ("style", VStr (style p)) ].

End Spec.

Section Statements.
Import Py.

(** *** Predicates and views of the statements *)

(** A token: not empty, and without white space. *)
Fixpoint nospace (s : string) : bool :=
  match s with
  | EmptyString => true
  | String c s' => negb (isspace c) && nospace s'
  end.

Definition token (t : string) : Prop :=
  is_empty t = false /\ nospace t = true.

Definition field (d : gmap string pyval) (k : string) : pyval :=
  default VNone (d !! k).

(** The phrase list [construct_query] joins. *)
Definition phrases (d : gmap string pyval) : list pyval :=
  [ field d "color"; field d "style"; field d "type";
    (if truthy (field d "occasion")
     then VStr ("for " +:+ format (field d "occasion")) else VStr "");
    field d "gender" ].

Definition str_or_none (v : pyval) : Prop :=
  match v with VStr _ | VNone => True | _ => False end.

Definition string_valued (d : gmap string pyval) : Prop :=
  forall k v, d !! k = Some v -> exists s, v = VStr s.

(** The text of a usable answer to a generation call: there are candidates,
    the text can be read and it holds at least one token. *)
Definition usable (o : result gen_response) : option string :=
  match o with
  | Ok r =>
      match candidates r, text r with
      | _ :: _, Ok t => match split t with [] => None | _ :: _ => Some t end
      | _, _ => None
      end
  | Raise _ => None
  end.

(** The URLs of a result list that pass the test of the primary search. *)
Definition valid_urls (results : list record) : list string :=
  omap (fun result : record => http_url (default VNone (result !! "image"))) results.

(** What the search service gives for a query: nothing when [DDGS()] or
    [ddgs.images] raises. *)
Definition search_results (E : env) (query : string) (max_results : Z) (h : log)
    : option (list record) :=
  match DDGS_enter E h with
  | Ok _ =>
      match ddgs_images E (h ++ [CDDGS]) query max_results with
      | Ok results => Some results
      | Raise _ => None
      end
  | Raise _ => None
  end.

(** *** Environments and inputs of the examples *)

(** An environment given by what the search answers to a keyword string and
    what the text generation answers to a prompt; [json.loads] decodes the
    empty object only. *)
Definition stub_env (key : option string)
    (search : string -> result (list record))
    (gen : string -> result gen_response) : env :=
  {| GEMINI_API_KEY := key;
     json_loads := fun s =>
       if decide (s = "{}") then Ok (JObject ∅) else Raise JSONDecodeError;
     json_dumps := fun _ => "";
     DDGS_enter := fun _ => Ok tt;
     ddgs_images := fun _ keywords _ => search keywords;
     generate_content := fun _ prompt _ => gen prompt |}.

Definition unavailable {A} : result A := Raise (ServiceError 503).

(** Both services down, no credential. *)
Definition offline : env :=
  stub_env None (fun _ => unavailable) (fun _ => unavailable).

(** The search finds one picture, whatever the query. *)
Definition one_hit : env :=
  stub_env None
    (fun _ => Ok [ {[ "image" := VStr "https://img.example/1.png" ]} ])
    (fun _ => unavailable).

(** The search knows watches; looking for a belt raises. *)
Definition watch_found_belt_raises : env :=
  stub_env None
    (fun keywords =>
       if decide (keywords = "watch accessory")
       then Ok [ {[ "image" := VStr "https://img.example/watch.png" ]} ]
       else unavailable)
    (fun _ => unavailable).

(** The search knows belts; looking for a watch raises. *)
Definition watch_raises_belt_found : env :=
  stub_env None
    (fun keywords =>
       if decide (keywords = "belt accessory")
       then Ok [ {[ "image" := VStr "https://img.example/belt.png" ]} ]
       else unavailable)
    (fun _ => unavailable).

(** The search gives records whose [image] is not an HTTP URL: a string with
    another scheme for the watch, a number for anything else. *)
Definition malformed_images : env :=
  stub_env None
    (fun keywords =>
       if decide (keywords = "watch accessory")
       then Ok [ {[ "image" := VStr "ftp://files.example/watch.png" ]} ]
       else Ok [ {[ "image" := VInt 42 ]} ])
    (fun _ => unavailable).

Definition scenario_A : Spec.preference_set :=
  {| Spec.color := "red"; Spec.gender := "female"; Spec.type := "dress";
     Spec.occasion := "party"; Spec.style := "elegant" |}.

Definition no_preferences : Spec.preference_set :=
  {| Spec.color := ""; Spec.gender := ""; Spec.type := "";
     Spec.occasion := ""; Spec.style := "" |}.

(** The Preference Set [recommend] reads from the form. *)
Definition form_preferences (f : form) : Spec.preference_set :=
  {| Spec.color := Py.strip (form_get f "color" "");
     Spec.gender := Py.strip (form_get f "gender" "");
     Spec.type := Py.strip (form_get f "type" "");
     Spec.occasion := Py.strip (form_get f "occasion" "");
     Spec.style := Py.strip (form_get f "style" "") |}.

(** The generation answers with one candidate whose text is a line break. *)
Definition blank_text : env :=
  stub_env (Some "key") (fun _ => unavailable)
    (fun _ => Ok {| candidates := [Py.nl]; text := Ok Py.nl |}).

(** The generation answers every prompt with the same ten words. *)
Definition ten_words : env :=
  stub_env (Some "key") (fun _ => unavailable)
    (fun _ => Ok {| candidates := ["c"];
                    text := Ok " red satin evening gown with lace sleeves for gala " |}).

Definition long_query : string :=
  "dark navy blue smart casual long sleeve shirt for summer wedding male".

(** The image searches among the calls of a log. *)
Definition image_calls (l : log) : list (string * Z) :=
  omap (fun c => match c with
                 | CImages keywords max_results => Some (keywords, max_results)
                 | _ => None
                 end) l.

Definition logged_in : gmap string string := {[ "user" := "asha" ]}.

Definition party_form : form :=
  [ ("color", "red"); ("gender", "female"); ("type", "dress");
    ("occasion", "party"); ("style", "elegant"); ("accessory_items", "watch") ].

End Statements.

(** * The other routes *)

(** ** Accounts and sessions of [app.py]

    The module-level [users] dict, the [session] of the client and the
    messages queued by [flash] make the state of these routes. *)

Record site : Type := {
  st_users : gmap string string;
  st_session : gmap string string;
  st_flashes : list (string * string)
}.

(** What these routes return: a redirect to an endpoint, or a template with
    its keyword arguments. *)
Inductive page : Type :=
  | RedirectTo (endpoint : string)
  | Template (name : string) (kwargs : list (string * pyval)).

(** [request.form[k]]: the first value, [KeyError] (a 400 response) without
    one. *)
Definition form_index (f : form) (k : string) : result string :=
  match form_getlist f k with
  | v :: _ => Ok v
  | [] => Raise KeyError
  end.

Section Accounts.
Local Open Scope py_scope.

Definition get_site : M site site := fun s => (Ok s, s).

(** [flash(message, category)] *)
Definition flash (message category : string) : M site unit :=
  fun s => (Ok tt, {| st_users := st_users s;
                      st_session := st_session s;
                      st_flashes := st_flashes s ++ [(message, category)] |}).

(** [session['user'] = username] *)
Definition session_set_user (username : string) : M site unit :=
  fun s => (Ok tt, {| st_users := st_users s;
                      st_session := <["user" := username]> (st_session s);
                      st_flashes := st_flashes s |}).

(** [session.pop('user', None)] *)
Definition session_pop_user : M site unit :=
  fun s => (Ok tt, {| st_users := st_users s;
                      st_session := delete "user" (st_session s);
                      st_flashes := st_flashes s |}).

(** [users[username] = password] *)
Definition users_set (username password : string) : M site unit :=
  fun s => (Ok tt, {| st_users := <[username := password]> (st_users s);
                      st_session := st_session s;
                      st_flashes := st_flashes s |}).

(** The route [/]. *)
Definition home : M site page :=
  s <- get_site ;;
  match st_session s !! "user" with
  | Some _ => ret (Template "index.html" [])
  | None => ret (RedirectTo "login")
  end.

(** The route [/login]; [method] is [request.method]. *)
Definition login (method : string) (f : form) : M site page :=
  if decide (method = "POST") then
    username <- of_result (form_index f "username") ;;
    password <- of_result (form_index f "password") ;;
    s <- get_site ;;
    match st_users s !! username with
    | Some stored =>
        if decide (stored = password)
        then session_set_user username ;;; ret (RedirectTo "home")
        else flash "Invalid credentials" "danger" ;;; ret (Template "login.html" [])
    | None =>
        flash "Invalid credentials" "danger" ;;; ret (Template "login.html" [])
    end
  else ret (Template "login.html" []).

(** The route [/register]. *)
Definition register (method : string) (f : form) : M site page :=
  if decide (method = "POST") then
    username <- of_result (form_index f "username") ;;
    password <- of_result (form_index f "password") ;;
    s <- get_site ;;
    match st_users s !! username with
    | Some _ =>
        flash "Username already exists" "warning" ;;;
        ret (Template "register.html" [])
    | None =>
        users_set username password ;;;
        flash "Registration successful! Please log in." "success" ;;;
        ret (RedirectTo "login")
    end
  else ret (Template "register.html" []).

(** The route [/logout]. *)
Definition logout : M site page :=
  session_pop_user ;;; ret (RedirectTo "login").

(** The route [/ask-accessories]: [request.form.get('preferences')] is
    [None] without the field. *)
Definition ask_accessories (f : form) : page :=
  let prefs := match form_getlist f "preferences" with
               | v :: _ => VStr v
               | [] => VNone
               end in
  Template "ask_accessories.html" [("preferences", prefs)].

End Accounts.

(** ** The routes of [appp.py]

    The helper functions of [appp.py] are those of [app.py], word for word;
    its [recommend] has no session and no test of it. *)
Module Appp.
Section Routes.
Local Open Scope py_scope.
Variable E : env.

(** The route [/]. *)
Definition index : page := Template "index.html" [].

(** The route [/recommend]. *)
Definition recommend (f : form) : M log response :=
  let user_preferences : gmap string pyval := list_to_map (preference_items f) in
  raw_query <- of_result (construct_query (JObject user_preferences)) ;;
  refined_query <- (if key_set E then refine_query_gemini E raw_query else ret raw_query) ;;
  image_urls <- scrape_duckduckgo_images E refined_query 5 ;;
  description <- generate_description E user_preferences ;;
  accessories_response <-
    (if form_contains f "accessory_items"
     then
       let accessory_items := form_getlist f "accessory_items" in
       gender <- of_result (match user_preferences !! "gender" with
                            | Some g => Ok g
                            | None => Raise KeyError
                            end) ;;
       text <- generate_accessories E refined_query gender accessory_items ;;
       ret (Some text)
     else ret None) ;;
  ret (RenderRecommendation
         {| rc_query := refined_query;
            rc_image_urls := image_urls;
            rc_description := description;
            rc_preferences := json_dumps E (preference_items f);
            rc_accessories_response := accessories_response |}).

End Routes.
End Appp.

(** ** Definitions used in the statements on these routes *)

Section MoreStatements.
Import Py.

(** No white space at either end. *)
Definition trimmed (s : string) : Prop := strip s = s.

(** Empty, or beginning with a character that is not white space. *)
Definition headok (s : string) : bool :=
  match s with
  | EmptyString => true
  | String c _ => negb (isspace c)
  end.

(** The [image] field of a record, [None] without one. *)
Definition image_of (result : record) : pyval := default VNone (result !! "image").

(** A site with no account, nobody logged in and no message. *)
Definition fresh_site : site :=
  {| st_users := ∅; st_session := ∅; st_flashes := [] |}.

Definition credentials (username password : string) : form :=
  [("username", username); ("password", password)].



(** A JSON codec that knows one document: the preferences of
    [party_form]. *)
Definition party_codec : env :=
  {| GEMINI_API_KEY := None;
     json_loads := fun s =>
       if decide (s = "party") then Ok (JObject (Spec.as_dict scenario_A))
       else if decide (s = "[]") then Ok JOther
       else Raise JSONDecodeError;
     json_dumps := fun _ => "party";
     DDGS_enter := fun _ => Ok tt;
     ddgs_images := fun _ _ _ =>
       Ok [ {[ "image" := VStr "https://img.example/1.png" ]} ];
     generate_content := fun _ _ _ => unavailable |}.

(** [c * n] for a character [c] *)
Fixpoint repeat_char (c : ascii) (n : nat) : string :=
  match n with
  | O => EmptyString
  | S n' => String c (repeat_char c n')
  end.

(** Two documents on which the decoder raises something else than
    [JSONDecodeError]: a thousand opening brackets, and a number of 4301
    digits. *)
Definition deep_array : string := repeat_char "["%char 1000.
Definition long_number : string := repeat_char "1"%char 4301.

(** A decoder that knows the empty object and the empty array, raises
    [RecursionError] on [deep_array] and [ValueError] on [long_number], and
    rejects the rest; the search finds one picture. *)
Definition strict_codec : env :=
  {| GEMINI_API_KEY := None;
     json_loads := fun s =>
       if decide (s = "{}") then Ok (JObject ∅)
       else if decide (s = "[]") then Ok JOther
       else if decide (s = deep_array) then Raise RecursionError
       else if decide (s = long_number) then Raise ValueError
       else Raise JSONDecodeError;
     json_dumps := fun _ => "";
     DDGS_enter := fun _ => Ok tt;
     ddgs_images := fun _ _ _ =>
       Ok [ {[ "image" := VStr "https://img.example/1.png" ]} ];
     generate_content := fun _ _ _ => unavailable |}.

(** The search finds nothing for the watch and a picture for anything
    else. *)
Definition no_watch : env :=
  stub_env None
    (fun keywords =>
       if decide (keywords = "watch accessory")
       then Ok [ {[ "title" := VStr "no image" ]}; {[ "image" := VStr "" ]} ]
       else Ok [ {[ "image" := VStr "https://img.example/1.png" ]} ])
    (fun _ => unavailable).

End MoreStatements.

(** * Properties *)

(** ** The built-ins on examples *)

Example split_ex : Py.split "  red  elegant dress " = ["red"; "elegant"; "dress"].
Proof. reflexivity. Qed.
Example strip_ex : Py.strip "  for party  " = "for party".
Proof. reflexivity. Qed.
Example join_ex : Py.join " " ["a"; "b"; "c"] = "a b c".
Proof. reflexivity. Qed.
Example fmt_ex : Py.format (VInt (-12)) = "-12".
Proof. reflexivity. Qed.


(** ** Strings: [split], [join] and [strip] *)

Module PyFacts.
Import Py.

Lemma app_cons (c : ascii) (s t : string) :
  String c s +:+ t = String c (s +:+ t).
Proof. reflexivity. Qed.

Lemma app_empty_l (s : string) : "" +:+ s = s.
Proof. reflexivity. Qed.

Lemma app_empty_r (s : string) : s +:+ "" = s.
Proof.
  induction s as [|c s IH]; [reflexivity|].
  now rewrite app_cons, IH.
Qed.

Lemma app_assoc (s t u : string) : (s +:+ t) +:+ u = s +:+ (t +:+ u).
Proof.
  induction s as [|c s IH]; [reflexivity|].
  now rewrite !app_cons, IH.
Qed.

Lemma is_empty_true (s : string) : is_empty s = true <-> s = "".
Proof. destruct s; simpl; split; congruence. Qed.

Lemma is_empty_app (s t : string) :
  is_empty (s +:+ t) = is_empty s && is_empty t.
Proof. destruct s; reflexivity. Qed.

Lemma nospace_app (s t : string) :
  nospace (s +:+ t) = nospace s && nospace t.
Proof.
  induction s as [|c s IH]; [reflexivity|].
  rewrite app_cons. simpl. rewrite IH. now rewrite andb_assoc.
Qed.

Lemma split_go_tokens (s cur : string) :
  nospace cur = true -> Forall token (split_go cur s).
Proof.
  revert cur. induction s as [|c s IH]; intros cur Hcur; simpl.
  - destruct (is_empty cur) eqn:He; constructor; [split; assumption | constructor].
  - destruct (isspace c) eqn:Hc.
    + destruct (is_empty cur) eqn:He.
      * apply IH. reflexivity.
      * constructor; [split; assumption | apply IH; reflexivity].
    + apply IH. rewrite nospace_app, Hcur. simpl. now rewrite Hc.
Qed.

Lemma split_tokens (s : string) : Forall token (split s).
Proof. apply split_go_tokens. reflexivity. Qed.

(** Reading a run without white space only extends the current run. *)
Lemma split_go_run (t s cur : string) :
  nospace t = true -> split_go cur (t +:+ s) = split_go (cur +:+ t) s.
Proof.
  revert cur. induction t as [|c t IH]; intros cur Ht.
  - now rewrite app_empty_r.
  - simpl in Ht. apply andb_prop in Ht as [Hc Ht].
    apply negb_true_iff in Hc. rewrite app_cons. simpl.
    rewrite Hc, IH by assumption.
    rewrite app_assoc. reflexivity.
Qed.

(** Joining tokens with one space and splitting again gives them back. *)
Lemma split_join (ts : list string) :
  Forall token ts -> split (join " " ts) = ts.
Proof.
  induction 1 as [|t ts [Hne Hns] Hts IH]; [reflexivity|].
  unfold split. destruct ts as [|t' ts].
  - simpl. rewrite <- (app_empty_r t) at 1.
    rewrite split_go_run by assumption.
    rewrite app_empty_l. simpl. now rewrite Hne.
  - change (join " " (t :: t' :: ts)) with (t +:+ " " +:+ join " " (t' :: ts)).
    rewrite split_go_run by assumption.
    rewrite app_empty_l, app_cons, app_empty_l. simpl.
    rewrite Hne. f_equal. exact IH.
Qed.

Lemma join_tokens_nonempty (ts : list string) :
  Forall token ts -> ts <> [] -> is_empty (join " " ts) = false.
Proof.
  intros Hts Hne. destruct Hts as [|t ts [Ht _] _]; [congruence|].
  destruct ts; simpl; [assumption|].
  rewrite is_empty_app, Ht. reflexivity.
Qed.

Lemma split_lstrip (s : string) : split (lstrip s) = split s.
Proof.
  unfold split. induction s as [|c s IH]; simpl; [reflexivity|].
  destruct (isspace c) eqn:Hc; simpl; [exact IH | now rewrite Hc].
Qed.

Lemma split_go_rstrip (s cur : string) :
  split_go cur (rstrip s) = split_go cur s.
Proof.
  revert cur. induction s as [|c s IH]; intros cur; simpl; [reflexivity|].
  destruct (isspace c) eqn:Hc; simpl.
  - destruct (is_empty (rstrip s)) eqn:He; simpl.
    + apply is_empty_true in He. rewrite <- (IH ""), He. simpl.
      destruct (is_empty cur); reflexivity.
    + rewrite Hc, IH. reflexivity.
  - rewrite Hc. apply IH.
Qed.

(** White space at the ends does not change the tokens. *)
Lemma split_strip (s : string) : split (strip s) = split s.
Proof. unfold strip, split. rewrite split_go_rstrip. apply split_lstrip. Qed.

Lemma Forall_token_take (n : nat) (ts : list string) :
  Forall token ts -> Forall token (take n ts).
Proof. apply Forall_take. Qed.

End PyFacts.

(** ** The Query Builder *)

Section QueryBuilder.
Import Py PyFacts.

Lemma construct_query_unfold (d : gmap string pyval) :
  construct_query (JObject d) =
  rbind (join_objs " " (filter (fun v => truthy v) (phrases d)))
        (fun q => Ok (strip q)).
Proof.
  unfold construct_query, phrases, field, get. simpl.
  destruct (truthy (default VNone (d !! "occasion"))); reflexivity.
Qed.

Lemma as_strs_filter_truthy (l : list pyval) :
  Forall str_or_none l ->
  exists ss, as_strs (filter (fun v => truthy v) l) = Some ss.
Proof.
  induction 1 as [|v l Hv _ [ss IH]]; [now exists []|].
  destruct v as [| |z|s]; try contradiction.
  - rewrite filter_cons_False by (simpl; tauto). eauto.
  - destruct s as [|c s].
    + rewrite filter_cons_False by (simpl; tauto). eauto.
    + rewrite filter_cons_True by exact I. simpl. rewrite IH. simpl. eauto.
Qed.

Lemma field_string_valued (d : gmap string pyval) (k : string) :
  string_valued d -> str_or_none (field d k).
Proof.
  intros Hd. unfold field. destruct (d !! k) as [v|] eqn:Hk; simpl; [|exact I].
  destruct (Hd _ _ Hk) as [s ->]. exact I.
Qed.

Lemma construct_query_total (d : gmap string pyval) :
  string_valued d -> exists q, construct_query (JObject d) = Ok q.
Proof.
  intros Hd. rewrite construct_query_unfold. unfold join_objs.
  destruct (as_strs_filter_truthy (phrases d)) as [ss ->]; [|simpl; eauto].
  unfold phrases. repeat constructor; try (now apply field_string_valued).
  destruct (truthy _); exact I.
Qed.

(** A missing key and a key bound to the empty string give the same
    phrase list but for [None] in the place of the empty string, and both
    are dropped by [filter(None, _)]. *)
Lemma filter_phrases_delete_insert (d : gmap string pyval) (k : string) :
  k ∈ ["color"; "gender"; "type"; "occasion"; "style"] ->
  filter (fun v => truthy v) (phrases (delete k d)) =
  filter (fun v => truthy v) (phrases (<[k := VStr ""]> d)).
Proof.
  intros Hk. unfold phrases, field.
  repeat (apply elem_of_cons in Hk as [-> | Hk]);
    [ .. | now apply elem_of_nil in Hk ];
    repeat first
      [ rewrite lookup_delete_eq | rewrite lookup_insert_eq
      | rewrite lookup_delete_ne by discriminate
      | rewrite lookup_insert_ne by discriminate ];
    simpl; reflexivity.
Qed.

Lemma join_nonempty_filter (l : list string) :
  Spec.join_nonempty l = join " " (filter (fun x => is_empty x = false) l).
Proof.
  induction l as [|x l IH]; [reflexivity|]. simpl.
  destruct (is_empty x) eqn:Hx.
  - rewrite filter_cons_False by congruence. exact IH.
  - rewrite filter_cons_True by assumption. rewrite IH.
    destruct (filter _ l) as [|y l'] eqn:Hf; [reflexivity|].
    assert (Hy : is_empty y = false).
    { assert (Hin : y ∈ filter (fun x => is_empty x = false) l)
        by (rewrite Hf; apply elem_of_cons; now left).
      apply list_elem_of_filter in Hin as [Hy _]. exact Hy. }
    replace (is_empty (join " " (y :: l'))) with false; [reflexivity|].
    symmetry. destruct l'; simpl; [assumption|].
    rewrite is_empty_app, Hy. reflexivity.
Qed.

Lemma as_strs_VStr (l : list string) : as_strs (VStr <$> l) = Some l.
Proof.
  induction l as [|x l IH]; [reflexivity|].
  rewrite fmap_cons. simpl. now rewrite IH.
Qed.

Lemma filter_truthy_VStr (l : list string) :
  filter (fun v => truthy v) (VStr <$> l) =
  VStr <$> filter (fun x => is_empty x = false) l.
Proof.
  induction l as [|x l IH]; [reflexivity|]. rewrite fmap_cons.
  destruct x as [|c x].
  - rewrite !filter_cons_False by (simpl; first [tauto | congruence]). exact IH.
  - rewrite !filter_cons_True by (simpl; first [exact I | reflexivity]).
    rewrite fmap_cons, IH. reflexivity.
Qed.

Lemma phrases_as_dict (p : Spec.preference_set) :
  phrases (Spec.as_dict p) =
  VStr <$> [Spec.color p; Spec.style p; Spec.type p;
            Spec.occasion_phrase p; Spec.gender p].
Proof.
  unfold phrases, field, Spec.occasion_phrase.
  replace (Spec.as_dict p !! "color") with (Some (VStr (Spec.color p))) by reflexivity.
  replace (Spec.as_dict p !! "style") with (Some (VStr (Spec.style p))) by reflexivity.
  replace (Spec.as_dict p !! "type") with (Some (VStr (Spec.type p))) by reflexivity.
  replace (Spec.as_dict p !! "occasion") with (Some (VStr (Spec.occasion p))) by reflexivity.
  replace (Spec.as_dict p !! "gender") with (Some (VStr (Spec.gender p))) by reflexivity.
  simpl. destruct (is_empty (Spec.occasion p)); reflexivity.
Qed.

Lemma construct_query_as_dict (p : Spec.preference_set) :
  construct_query (JObject (Spec.as_dict p)) = Ok (Spec.build_query p).
Proof.
  rewrite construct_query_unfold, phrases_as_dict, filter_truthy_VStr.
  unfold join_objs. rewrite as_strs_VStr. simpl.
  unfold Spec.build_query. now rewrite join_nonempty_filter.
Qed.

End QueryBuilder.

(** ** The Text Generation Client *)

Section TextGeneration.
Import Py PyFacts.
Variable E : env.

Lemma refine_query_gemini_run (raw_query : string) (h : log) :
  refine_query_gemini E raw_query h =
  (Ok match generate_content E h (refine_prompt raw_query) (Some 60) with
      | Ok r =>
          match candidates r, text r with
          | _ :: _, Ok t => str_or (join " " (take 8 (split (strip t)))) raw_query
          | _, _ => raw_query
          end
      | Raise _ => raw_query
      end,
   h ++ [CGenerate (refine_prompt raw_query) (Some 60)]).
Proof.
  unfold refine_query_gemini, try_except, bind, generate, of_result, ret.
  destruct (generate_content E h _ _) as [[[|c cs] [t|e]]|e]; reflexivity.
Qed.

Lemma generate_description_run (prefs : gmap string pyval) (h : log) :
  generate_description E prefs h =
  (Ok match generate_content E h (description_prompt prefs) None with
      | Ok r =>
          match candidates r, text r with
          | _ :: _, Ok t => strip t
          | _, _ => description_fallback
          end
      | Raise _ => description_fallback
      end,
   h ++ [CGenerate (description_prompt prefs) None]).
Proof.
  unfold generate_description, try_except, bind, generate, of_result, ret.
  destruct (generate_content E h _ _) as [[[|c cs] [t|e]]|e]; reflexivity.
Qed.

Lemma generate_accessories_run (outfit_desc : string) (gender : pyval)
    (items : list string) (h : log) :
  generate_accessories E outfit_desc gender items h =
  (Ok match generate_content E h (accessories_prompt outfit_desc gender items) None with
      | Ok r => match text r with Ok t => strip t | Raise _ => accessories_fallback end
      | Raise _ => accessories_fallback
      end,
   h ++ [CGenerate (accessories_prompt outfit_desc gender items) None]).
Proof.
  unfold generate_accessories, try_except, bind, generate, of_result, ret.
  destruct (generate_content E h _ _) as [[cs [t|e]]|e]; reflexivity.
Qed.

Lemma str_or_tokens (t raw_query : string) :
  split t <> [] ->
  let s := str_or (join " " (take 8 (split (strip t)))) raw_query in
  s = join " " (take 8 (split t)) /\ split s = take 8 (split t) /\ is_empty s = false.
Proof.
  intros Ht s. subst s. rewrite split_strip.
  assert (Htok : Forall token (take 8 (split t)))
    by apply Forall_token_take, split_tokens.
  assert (Hne : take 8 (split t) <> []) by (destruct (split t); [congruence | discriminate]).
  pose proof (join_tokens_nonempty _ Htok Hne) as Hj.
  unfold str_or. rewrite Hj. repeat split; [now apply split_join | exact Hj].
Qed.

End TextGeneration.

(** ** The Image Search Client *)

Section ImageSearch.
Import Py.
Variable E : env.

Lemma scrape_loop_take (n : Z) (results : list record) (images : list string) :
  1 <= n -> (length images < Z.to_nat n)%nat ->
  scrape_loop n results images = take (Z.to_nat n) (images ++ valid_urls results).
Proof.
  intros Hn. revert images.
  induction results as [|result rest IH]; intros images Hlen; simpl.
  - rewrite app_nil_r, take_ge by lia. reflexivity.
  - unfold valid_urls. simpl. fold (valid_urls rest).
    destruct (http_url (default VNone (result !! "image"))) as [s|]; simpl.
    + unfold len_ge. rewrite List.length_app. simpl.
      destruct (Z.leb_spec n (Z.of_nat (length images + 1))) as [Hge|Hlt].
      * rewrite (cons_middle s images (valid_urls rest)), app_assoc.
        rewrite take_app_length' by (rewrite List.length_app; simpl; lia).
        reflexivity.
      * rewrite IH by (rewrite List.length_app; simpl; lia).
        now rewrite <- app_assoc.
    + unfold len_ge.
      destruct (Z.leb_spec n (Z.of_nat (length images))) as [Hge|Hlt]; [lia|].
      now apply IH.
Qed.

Lemma scrape_duckduckgo_images_run (query : string) (max_images : Z) (h : log) :
  exists h',
  scrape_duckduckgo_images E query max_images h =
  (Ok match search_results E query (max_images * 2) h with
      | Some results =>
          match scrape_loop max_images results [] with
          | [] => list_mul get_placeholder_image max_images
          | images => images
          end
      | None => list_mul get_placeholder_image max_images
      end, h')
  /\ (h' = h ++ [CDDGS] \/ h' = h ++ [CDDGS; CImages query (max_images * 2)]).
Proof.
  unfold scrape_duckduckgo_images, search_results, try_except, bind, DDGS, images, ret.
  destruct (DDGS_enter E h) as [[]|e]; simpl.
  - destruct (ddgs_images E _ _ _) as [results|e]; simpl;
      rewrite <- app_assoc; simpl.
    + destruct (scrape_loop _ _ _); eauto.
    + eauto.
  - eauto.
Qed.

(** The list returned, for a cap of at least 1. *)
Lemma scrape_duckduckgo_images_urls (query : string) (n : Z) (h : log) :
  1 <= n ->
  fst (scrape_duckduckgo_images E query n h) =
  Ok match search_results E query (n * 2) h with
     | Some results =>
         match valid_urls results with
         | [] => replicate (Z.to_nat n) get_placeholder_image
         | _ :: _ => take (Z.to_nat n) (valid_urls results)
         end
     | None => replicate (Z.to_nat n) get_placeholder_image
     end.
Proof.
  intros Hn.
  destruct (scrape_duckduckgo_images_run query n h) as (h' & Hrun & _).
  rewrite Hrun. simpl. f_equal.
  destruct (search_results E query (n * 2) h) as [results|]; [|reflexivity].
  rewrite scrape_loop_take by (simpl; lia). simpl.
  destruct (valid_urls results) as [|v vs]; [now rewrite take_nil|].
  destruct (Z.to_nat n) as [|k] eqn:Hk; [lia | reflexivity].
Qed.

Lemma for_each_app {S A} (l1 l2 : list A) (body : A -> M S unit) (s : S) :
  for_each (l1 ++ l2) body s = bind (for_each l1 body) (fun _ => for_each l2 body) s.
Proof.
  revert s. induction l1 as [|x l1 IH]; intros s; simpl; [reflexivity|].
  unfold bind in *.
  destruct (body x s) as [[[]|e] s']; [apply IH | reflexivity].
Qed.

(** One round of the loop. *)
Lemma fetch_loop_cons (item : string) (rest : list string)
    (m : gmap string pyval) (h : log) :
  fetch_loop E (item :: rest) (m, h) =
  match ddgs_images E h (item +:+ " accessory") 1 with
  | Ok results =>
      fetch_loop E rest
        (store_first item results m, h ++ [CImages (item +:+ " accessory") 1])
  | Raise e => (Raise e, (m, h ++ [CImages (item +:+ " accessory") 1]))
  end.
Proof.
  unfold fetch_loop. simpl. unfold bind, with_local, images, modify_local. simpl.
  destruct (ddgs_images E h _ _); reflexivity.
Qed.

Lemma store_first_keys (item : string) (results : list record)
    (m : gmap string pyval) (k : string) :
  is_Some (store_first item results m !! k) -> is_Some (m !! k) \/ k = item.
Proof.
  induction results as [|result rest IH]; simpl; [tauto|].
  destruct (truthy _); [|exact IH].
  destruct (decide (item = k)) as [->|Hne]; [tauto|].
  rewrite lookup_insert_ne by assumption. tauto.
Qed.

(** The loop stores entries under the names of the batch only. *)
Lemma fetch_loop_keys (items : list string) (m m' : gmap string pyval)
    (h h' : log) (r : result unit) (k : string) :
  fetch_loop E items (m, h) = (r, (m', h')) ->
  is_Some (m' !! k) -> is_Some (m !! k) \/ k ∈ items.
Proof.
  revert m h. induction items as [|item rest IH]; intros m h Hrun Hk.
  - unfold fetch_loop in Hrun. simpl in Hrun. unfold ret in Hrun.
    injection Hrun as _ <- _. tauto.
  - rewrite fetch_loop_cons in Hrun.
    destruct (ddgs_images E h _ _) as [results|e].
    + destruct (IH _ _ Hrun Hk) as [Hs|Hin].
      * apply store_first_keys in Hs as [Hs| ->]; [tauto|].
        right. apply elem_of_cons. tauto.
      * right. apply elem_of_cons. tauto.
    + injection Hrun as _ <- _. tauto.
Qed.

Lemma fetch_accessory_images_run (items : list string) (h : log) :
  fetch_accessory_images E items h =
  match DDGS_enter E h with
  | Ok _ =>
      let '(_, (images, h')) := fetch_loop E items (∅, h ++ [CDDGS]) in
      (Ok images, h')
  | Raise _ => (Ok ∅, h ++ [CDDGS])
  end.
Proof.
  unfold fetch_accessory_images, try_except, bind, with_local, DDGS, ret. simpl.
  destruct (DDGS_enter E h) as [[]|e]; simpl; [|reflexivity].
  destruct (fetch_loop E items _) as [[[]|e] [images h']]; reflexivity.
Qed.

Lemma fetch_accessory_images_total (items : list string) (h : log) :
  exists images h', fetch_accessory_images E items h = (Ok images, h').
Proof.
  rewrite fetch_accessory_images_run.
  destruct (DDGS_enter E h); [|eauto].
  destruct (fetch_loop E items _) as [r [images h']]. eauto.
Qed.

End ImageSearch.

(** ** The claims on the primary image search *)

Section SearchImages.
Import Py.

(** C1, as the code has it.  For every query and every cap [n >= 1],
    [scrape_duckduckgo_images] returns normally a list of at least one and at
    most [n] URLs.  When the service raises, or gives no record with a valid
    URL, the list is [n] copies of the placeholder; otherwise it is the first
    [n] valid URLs, and all of them when there are fewer than [n]: the list is
    not filled up to the cap. *)
Theorem scrape_duckduckgo_images_length (E : env) (query : string) (n : Z) (h : log) :
  1 <= n ->
  exists urls h',
    scrape_duckduckgo_images E query n h = (Ok urls, h')
    /\ (1 <= length urls <= Z.to_nat n)%nat
    /\ match search_results E query (n * 2) h with
       | Some results =>
           match valid_urls results with
           | [] => urls = replicate (Z.to_nat n) get_placeholder_image
           | _ :: _ => urls = take (Z.to_nat n) (valid_urls results)
           end
       | None => urls = replicate (Z.to_nat n) get_placeholder_image
       end.
Proof.
  intros Hn.
  destruct (scrape_duckduckgo_images_run E query n h) as (h' & Hrun & _).
  pose proof (scrape_duckduckgo_images_urls E query n h Hn) as Hurls.
  rewrite Hrun in Hurls |- *. simpl in Hurls. injection Hurls as Hurls.
  eexists _, h'. split; [reflexivity|]. rewrite Hurls.
  assert (Hph : (1 <= length (replicate (Z.to_nat n) get_placeholder_image)
                 <= Z.to_nat n)%nat)
    by (rewrite length_replicate; lia).
  destruct (search_results E query (n * 2) h) as [results|]; [|now split].
  destruct (valid_urls results) as [|v vs]; [now split|].
  split; [|reflexivity].
  destruct (Z.to_nat n) as [|k] eqn:Hk; [lia|]. simpl.
  rewrite length_take. lia.
Qed.

Lemma scrape_duckduckgo_images_length_witness :
  1 <= 5
  /\ exists urls h',
       scrape_duckduckgo_images one_hit "red dress" 5 [] = (Ok urls, h')
       /\ (1 <= length urls <= 5)%nat
       /\ urls = ["https://img.example/1.png"].
Proof.
  split; [lia|].
  destruct (scrape_duckduckgo_images_length one_hit "red dress" 5 [])
    as (urls & h' & Hrun & Hlen & Hurls); [lia|].
  exists urls, h'. split; [exact Hrun|]. split; [exact Hlen | exact Hurls].
Defined.

(** With a cap of 0 the loop still takes the first valid URL before it tests
    the length, so the bound [n] needs [n >= 1]. *)
Lemma scrape_duckduckgo_images_cap_0 :
  fst (scrape_duckduckgo_images one_hit "red dress" 0 [])
    = Ok ["https://img.example/1.png"].
Proof. vm_compute. reflexivity. Qed.

(** C1 as stated fails: the search finds one picture, the cap is 5, and the
    list returned has one entry. *)
Lemma scrape_duckduckgo_images_shorter_than_cap :
  fst (scrape_duckduckgo_images one_hit "red dress" 5 [])
    = Ok ["https://img.example/1.png"]
  /\ length ["https://img.example/1.png"] <> 5%nat.
Proof. split; [vm_compute; reflexivity | discriminate]. Qed.

End SearchImages.

(** ** The claims on the accessory image lookups *)

Section AccessoryImages.
Import Py.

(** C2, as the code has it.  An error raised by the lookup of one item is
    caught and does not reach the caller, and it ends the batch: when the
    items [pre] have been looked up without an error, leaving the map [m],
    and the lookup of [item] raises, the result is [m], whatever items
    [post] follow; the last call made is the failing one, so no later item is
    looked up, and [m] has entries for names of [pre] only. *)
Theorem fetch_accessory_images_error_ends_batch (E : env)
    (pre : list string) (item : string) (post : list string)
    (h h1 : log) (m : gmap string pyval) (e : exn) :
  DDGS_enter E h = Ok tt ->
  fetch_loop E pre (∅, h ++ [CDDGS]) = (Ok tt, (m, h1)) ->
  ddgs_images E h1 (item +:+ " accessory") 1 = Raise e ->
  fetch_accessory_images E (pre ++ item :: post) h
    = (Ok m, h1 ++ [CImages (item +:+ " accessory") 1])
  /\ forall k, is_Some (m !! k) -> k ∈ pre.
Proof.
  intros Henter Hpre Hitem. split.
  - rewrite fetch_accessory_images_run, Henter.
    unfold fetch_loop. rewrite for_each_app. fold (fetch_loop E pre).
    unfold bind at 1. rewrite Hpre.
    change (for_each (item :: post) _) with (fetch_loop E (item :: post)).
    rewrite fetch_loop_cons, Hitem. reflexivity.
  - intros k Hk. destruct (fetch_loop_keys E _ _ _ _ _ _ k Hpre Hk) as [Hs|Hin];
      [|exact Hin].
    rewrite lookup_empty in Hs. now destruct Hs.
Qed.

Lemma fetch_accessory_images_error_ends_batch_witness :
  DDGS_enter watch_found_belt_raises [] = Ok tt
  /\ fetch_loop watch_found_belt_raises ["watch"] (∅, [] ++ [CDDGS])
     = (Ok tt, ({[ "watch" := VStr "https://img.example/watch.png" ]},
                [CDDGS; CImages "watch accessory" 1]))
  /\ ddgs_images watch_found_belt_raises [CDDGS; CImages "watch accessory" 1]
       ("belt" +:+ " accessory") 1 = Raise (ServiceError 503)
  /\ fetch_accessory_images watch_found_belt_raises ["watch"; "belt"] []
     = (Ok {[ "watch" := VStr "https://img.example/watch.png" ]},
        [CDDGS; CImages "watch accessory" 1; CImages "belt accessory" 1]).
Proof.
  split; [reflexivity|]. split; [reflexivity|]. split; [reflexivity|].
  apply (fetch_accessory_images_error_ends_batch watch_found_belt_raises
           ["watch"] "belt" [] []
           [CDDGS; CImages "watch accessory" 1]
           {[ "watch" := VStr "https://img.example/watch.png" ]}
           (ServiceError 503)); reflexivity.
Defined.

(** C2 as stated fails: in the batch [watch], [belt] the lookup of the watch
    raises and the belt would be found, but the belt is never looked up and
    the map is empty. *)
Lemma fetch_accessory_images_error_not_isolated :
  ddgs_images watch_raises_belt_found [CDDGS] "watch accessory" 1
    = Raise (ServiceError 503)
  /\ ddgs_images watch_raises_belt_found [CDDGS; CImages "watch accessory" 1]
       "belt accessory" 1
     = Ok [ {[ "image" := VStr "https://img.example/belt.png" ]} ]
  /\ fetch_accessory_images watch_raises_belt_found ["watch"; "belt"] []
     = (Ok ∅, [CDDGS; CImages "watch accessory" 1])
  /\ (∅ : gmap string pyval) <> {[ "belt" := VStr "https://img.example/belt.png" ]}.
Proof.
  repeat split; try reflexivity.
  intros Heq. apply (f_equal (fun m : gmap string pyval => m !! "belt")) in Heq.
  rewrite lookup_empty, lookup_singleton_eq in Heq. discriminate.
Qed.

(** Every URL of the primary image list is the placeholder or the [image]
    field of a record of the service, a string beginning with [http]. *)
Lemma scrape_duckduckgo_images_validated (E : env) (query : string) (n : Z)
    (h : log) (url : string) :
  1 <= n ->
  (exists urls, fst (scrape_duckduckgo_images E query n h) = Ok urls /\ url ∈ urls) ->
  url = get_placeholder_image
  \/ exists results result,
       search_results E query (n * 2) h = Some results
       /\ result ∈ results
       /\ result !! "image" = Some (VStr url)
       /\ startswith "http" url = true.
Proof.
  intros Hn (urls & Hrun & Hin).
  rewrite scrape_duckduckgo_images_urls in Hrun by assumption.
  injection Hrun as Hurls.
  assert (Hph : url ∈ replicate (Z.to_nat n) get_placeholder_image ->
                url = get_placeholder_image)
    by apply elem_of_replicate_inv.
  destruct (search_results E query (n * 2) h) as [results|]; [|subst; tauto].
  destruct (valid_urls results) as [|v vs] eqn:Hv; [subst; tauto|].
  right. subst urls. apply elem_of_take in Hin as [i [Hin _]].
  apply list_elem_of_lookup_2 in Hin. rewrite <- Hv in Hin.
  apply list_elem_of_omap in Hin as (result & Hres & Hurl).
  exists results, result. split; [reflexivity|]. split; [assumption|].
  unfold http_url in Hurl.
  destruct (result !! "image") as [[| | |s]|];
    cbn -[startswith] in Hurl; try discriminate.
  destruct (startswith "http" s) eqn:Hs; [|discriminate].
  injection Hurl as ->. now split.
Qed.

(** C9 fails on the accessory path.  The service gives for the watch a
    record whose [image] is the string [ftp://files.example/watch.png] and
    for the belt one whose [image] is the number 42; the test of the primary
    search rejects both, and both become entries of the accessory image
    map. *)
Lemma fetch_accessory_images_takes_non_http :
  http_url (VStr "ftp://files.example/watch.png") = None
  /\ http_url (VInt 42) = None
  /\ fst (fetch_accessory_images malformed_images ["watch"; "belt"] [])
     = Ok (<[ "belt" := VInt 42 ]>
             {[ "watch" := VStr "ftp://files.example/watch.png" ]})
  /\ fst (scrape_duckduckgo_images malformed_images "watch accessory" 5 [])
     = Ok (replicate 5 get_placeholder_image).
Proof. repeat split; vm_compute; reflexivity. Qed.

End AccessoryImages.

(** ** The claims on the Query Builder *)

Section QueryBuilderClaims.
Import Py.

(** C6.  [construct_query] is a total function of the Preference Set and
    computes what the specification says: the phrases color, style, type,
    ["for <occasion>"] (for a non-empty occasion) and gender in this order,
    the empty ones skipped, joined by single spaces, trimmed.  The Preference
    Set with every field empty gives the empty string, and the one of
    Scenario A gives ["red elegant dress for party female"]. *)
Theorem construct_query_build_query :
  (forall p : Spec.preference_set,
     construct_query (JObject (Spec.as_dict p)) = Ok (Spec.build_query p))
  /\ construct_query (JObject (Spec.as_dict no_preferences)) = Ok ""
  /\ construct_query (JObject (Spec.as_dict scenario_A))
     = Ok "red elegant dress for party female".
Proof.
  split; [exact construct_query_as_dict|].
  rewrite !construct_query_as_dict. split; reflexivity.
Qed.

Lemma accessories_run (E : env) (f : form) (h : log) (d : gmap string pyval)
    (outfit_desc : string) :
  try_except_JSONDecodeError (loads E (form_get f "preferences" "{}"))
    (ret (JObject ∅)) h = (Ok (JObject d), h) ->
  construct_query (JObject d) = Ok outfit_desc ->
  exists text h1 images h2,
    generate_accessories E outfit_desc (default (VStr "unisex") (d !! "gender"))
      (form_getlist f "items") h = (Ok text, h1)
    /\ fetch_accessory_images E (form_getlist f "items") h1 = (Ok images, h2)
    /\ accessories E f h
       = (Ok (RenderAccessories
                {| ac_outfit := outfit_desc;
                   ac_accessories := text;
                   ac_accessory_images := images |}), h2).
Proof.
  intros Hloads Hquery.
  pose proof (generate_accessories_run E outfit_desc
                (default (VStr "unisex") (d !! "gender"))
                (form_getlist f "items") h) as Htext.
  set (text := match generate_content E h _ None with Ok _ => _ | Raise _ => _ end) in Htext.
  set (h1 := h ++ _) in Htext.
  destruct (fetch_accessory_images_total E (form_getlist f "items") h1)
    as (images & h2 & Himages).
  exists text, h1, images, h2. split; [exact Htext|]. split; [exact Himages|].
  unfold accessories. unfold bind at 1. rewrite Hloads.
  unfold bind at 1. unfold of_result at 1. rewrite Hquery.
  unfold bind at 1. unfold of_result at 1.
  unfold bind at 1. rewrite Htext.
  unfold bind at 1. rewrite Himages. reflexivity.
Qed.

(** C10.  On a mapping whose present values are strings [construct_query]
    does not raise, whichever keys are missing; a mapping without one of the
    five keys gives the same as the mapping with this key bound to the empty
    string; the empty mapping gives the empty string; and [accessories],
    which passes the mapping it decoded to [construct_query], returns
    normally on such a mapping. *)
Theorem construct_query_missing_keys (d : gmap string pyval) :
  string_valued d ->
  (exists q, construct_query (JObject d) = Ok q)
  /\ (forall k, k ∈ ["color"; "gender"; "type"; "occasion"; "style"] ->
        construct_query (JObject (delete k d))
        = construct_query (JObject (<[k := VStr ""]> d)))
  /\ construct_query (JObject ∅) = Ok ""
  /\ (forall (E : env) (f : form) (h : log),
        json_loads E (form_get f "preferences" "{}") = Ok (JObject d) ->
        exists ctx h', accessories E f h = (Ok (RenderAccessories ctx), h')).
Proof.
  intros Hd. split; [now apply construct_query_total|].
  split; [|split; [reflexivity|]].
  - intros k Hk. rewrite !construct_query_unfold.
    now rewrite filter_phrases_delete_insert.
  - intros E f h Hloads.
    destruct (construct_query_total d Hd) as [q Hq].
    destruct (accessories_run E f h d q) as (text & h1 & images & h2 & _ & _ & Hrun);
      [|exact Hq|eauto].
    unfold try_except_JSONDecodeError, loads, of_result. now rewrite Hloads.
Qed.

Lemma red_only_string_valued : string_valued {[ "color" := VStr "red" ]}.
Proof.
  intros k v Hkv. apply lookup_singleton_Some in Hkv as [_ <-]. now exists "red".
Qed.

Lemma construct_query_missing_keys_witness :
  string_valued {[ "color" := VStr "red" ]}
  /\ construct_query (JObject {[ "color" := VStr "red" ]}) = Ok "red"
  /\ construct_query (JObject (delete "style" {[ "color" := VStr "red" ]}))
     = construct_query (JObject (<["style" := VStr ""]> {[ "color" := VStr "red" ]})).
Proof.
  split; [exact red_only_string_valued|]. split; [reflexivity|].
  apply (construct_query_missing_keys _ red_only_string_valued).
  repeat constructor.
Defined.

End QueryBuilderClaims.

(** ** The claims on the Text Generation Client *)

Section TextGenerationClaims.
Import Py PyFacts.

(** C4, as the code has it.  For a non-empty query [refine_query_gemini]
    returns normally a non-empty string.  When the answer of the service is
    usable, the result is the first at most 8 tokens of its text joined by
    single spaces, so it has at most 8 tokens; when the service raises, gives
    no candidate, no readable text or no token, the result is the raw query
    unchanged, whatever the number of its tokens. *)
Theorem refine_query_gemini_result (E : env) (raw_query : string) (h : log) :
  raw_query <> "" ->
  exists s,
    refine_query_gemini E raw_query h
    = (Ok s, h ++ [CGenerate (refine_prompt raw_query) (Some 60)])
    /\ s <> ""
    /\ match usable (generate_content E h (refine_prompt raw_query) (Some 60)) with
       | Some t =>
           s = join " " (take 8 (split t))
           /\ split s = take 8 (split t)
           /\ (length (split s) <= 8)%nat
       | None => s = raw_query
       end.
Proof.
  intros Hraw. rewrite refine_query_gemini_run. eexists. split; [reflexivity|].
  unfold usable.
  destruct (generate_content E h _ _) as [[[|c cs] [t|e]]|e]; simpl;
    try (split; [assumption | reflexivity]).
  destruct (split t) as [|w ws] eqn:Ht.
  - rewrite split_strip, Ht. simpl. split; [assumption | reflexivity].
  - destruct (str_or_tokens t raw_query) as (Hs & Hsplit & Hne); [congruence|].
    split.
    + intros Hempty. rewrite Hempty in Hne. discriminate.
    + split; [exact Hs|]. split; [exact Hsplit|].
      rewrite Hsplit, length_take. lia.
Qed.

Lemma refine_query_gemini_result_witness :
  "red dress" <> ""
  /\ exists s,
       fst (refine_query_gemini ten_words "red dress" []) = Ok s
       /\ s <> ""
       /\ s = "red satin evening gown with lace sleeves for".
Proof.
  assert (Hne : "red dress" <> "") by discriminate.
  split; [exact Hne|].
  destruct (refine_query_gemini_result ten_words "red dress" [] Hne)
    as (s & Hrun & Hs & Husable).
  exists s. split; [now rewrite Hrun|]. split; [exact Hs|].
  vm_compute in Husable. apply Husable.
Defined.

(** C4 as stated fails: the service is down and the raw query has 12
    tokens; it comes back unchanged. *)
Lemma refine_query_gemini_fallback_over_8_tokens :
  long_query <> ""
  /\ fst (refine_query_gemini offline long_query []) = Ok long_query
  /\ length (split long_query) = 12%nat
  /\ ~ (length (split long_query) <= 8)%nat.
Proof.
  split; [discriminate|]. split; [reflexivity|].
  split; [reflexivity|]. vm_compute. lia.
Qed.

(** [generate_description] returns normally, after one generation call.  Its result is the fixed fallback sentence when
    the call raises, when the answer has no candidates and when the text of
    the answer cannot be read; when the answer has candidates and a text, the
    result is this text stripped, also when that is the empty string. *)
Lemma generate_description_result (E : env) (prefs : gmap string pyval) (h : log) :
  exists s,
    generate_description E prefs h
    = (Ok s, h ++ [CGenerate (description_prompt prefs) None])
    /\ match generate_content E h (description_prompt prefs) None with
       | Raise _ => s = description_fallback
       | Ok r =>
           match candidates r, text r with
           | [], _ => s = description_fallback
           | _ :: _, Raise _ => s = description_fallback
           | _ :: _, Ok t => s = strip t
           end
       end.
Proof.
  rewrite generate_description_run. eexists. split; [reflexivity|].
  destruct (generate_content E h _ _) as [[[|c cs] [t|e]]|e]; reflexivity.
Qed.

(** C7 fails on a blank text: the answer has a candidate and its text is a
    line break; the description is the empty string, not the fallback
    sentence.  On the same answer [refine_query_gemini] does fall back, to
    the raw query. *)
Lemma generate_description_blank_text :
  generate_content blank_text [] (description_prompt (Spec.as_dict scenario_A)) None
    = Ok {| candidates := [nl]; text := Ok nl |}
  /\ fst (generate_description blank_text (Spec.as_dict scenario_A) []) = Ok ""
  /\ "" <> description_fallback
  /\ fst (refine_query_gemini blank_text "red dress" []) = Ok "red dress".
Proof.
  split; [reflexivity|]. split; [vm_compute; reflexivity|].
  split; [discriminate | vm_compute; reflexivity].
Qed.

End TextGenerationClaims.

(** ** The claims on the routes *)

Section Routes.
Import Py.

Lemma preference_items_as_dict (f : form) :
  list_to_map (preference_items f) = Spec.as_dict (form_preferences f).
Proof. reflexivity. Qed.

(** The steps of [recommend] for a user who is logged in: each step returns
    normally and hands its result to the next. *)
Lemma recommend_run (E : env) (session : gmap string string) (f : form)
    (h : log) (user : string) :
  session !! "user" = Some user ->
  let prefs := Spec.as_dict (form_preferences f) in
  let raw_query := Spec.build_query (form_preferences f) in
  exists refined_query h1 image_urls h2 description h3 accessories_response h4,
    (if key_set E then refine_query_gemini E raw_query h else (Ok raw_query, h))
      = (Ok refined_query, h1)
    /\ scrape_duckduckgo_images E refined_query 5 h1 = (Ok image_urls, h2)
    /\ generate_description E prefs h2 = (Ok description, h3)
    /\ (if form_contains f "accessory_items"
        then exists text,
               generate_accessories E refined_query
                 (VStr (Spec.gender (form_preferences f)))
                 (form_getlist f "accessory_items") h3 = (Ok text, h4)
               /\ accessories_response = Some text
        else accessories_response = None /\ h4 = h3)
    /\ recommend E session f h
       = (Ok (RenderRecommendation
                {| rc_query := refined_query;
                   rc_image_urls := image_urls;
                   rc_description := description;
                   rc_preferences := json_dumps E (preference_items f);
                   rc_accessories_response := accessories_response |}), h4).
Proof.
  intros Huser prefs raw_query.
  assert (Hrefine : exists refined_query h1,
    (if key_set E then refine_query_gemini E raw_query h else (Ok raw_query, h))
    = (Ok refined_query, h1)).
  { destruct (key_set E); [|eauto]. rewrite refine_query_gemini_run. eauto. }
  destruct Hrefine as (refined_query & h1 & Hrefine).
  destruct (scrape_duckduckgo_images_run E refined_query 5 h1) as (h2 & Hscrape & _).
  pose proof (generate_description_run E prefs h2) as Hdescr.
  set (h3 := h2 ++ _) in Hdescr.
  pose proof (generate_accessories_run E refined_query
                (VStr (Spec.gender (form_preferences f)))
                (form_getlist f "accessory_items") h3) as Hacc.
  assert (Hstart : recommend E session f h =
    (refined_query <- (if key_set E then refine_query_gemini E raw_query
                       else ret raw_query) ;;
     image_urls <- scrape_duckduckgo_images E refined_query 5 ;;
     description <- generate_description E prefs ;;
     accessories_response <-
       (if form_contains f "accessory_items"
        then
          text <- generate_accessories E refined_query
                    (VStr (Spec.gender (form_preferences f)))
                    (form_getlist f "accessory_items") ;;
          ret (Some text)
        else ret None) ;;
     ret (RenderRecommendation
            {| rc_query := refined_query;
               rc_image_urls := image_urls;
               rc_description := description;
               rc_preferences := json_dumps E (preference_items f);
               rc_accessories_response := accessories_response |})) h).
  { unfold recommend. rewrite Huser, preference_items_as_dict.
    unfold bind at 1. unfold of_result at 1.
    rewrite construct_query_as_dict. reflexivity. }
  rewrite Hstart. clear Hstart.
  assert (Hrefine' : (if key_set E then refine_query_gemini E raw_query
                      else ret raw_query) h = (Ok refined_query, h1))
    by (destruct (key_set E); exact Hrefine).
  unfold bind at 1. rewrite Hrefine'.
  unfold bind at 1. rewrite Hscrape.
  unfold bind at 1. rewrite Hdescr.
  destruct (form_contains f "accessory_items").
  - eexists refined_query, h1, _, h2, _, h3, _, _.
    split; [exact Hrefine|]. split; [exact Hscrape|]. split; [exact Hdescr|].
    split; [eexists; split; [exact Hacc | reflexivity]|].
    unfold bind at 1. unfold bind at 1. rewrite Hacc. reflexivity.
  - eexists refined_query, h1, _, h2, _, h3, None, h3.
    split; [exact Hrefine|]. split; [exact Hscrape|]. split; [exact Hdescr|].
    split; [split; reflexivity|]. reflexivity.
Qed.

End Routes.

Section RouteClaims.
Import Py.

Lemma image_calls_app (l1 l2 : log) :
  image_calls (l1 ++ l2) = image_calls l1 ++ image_calls l2.
Proof. apply omap_app. Qed.

(** C3, as the code has it.  When accessory items come with the Phase 1
    preferences, [recommend] returns normally and what it embeds is the
    accessory text alone: the result of [generate_accessories] on the refined
    query, the gender and the items.  The only image search of the request is
    the primary one, with [max_results = 10]; no accessory image is looked up
    and the response has no accessory image map. *)
Theorem recommend_embeds_accessory_text_only (E : env)
    (session : gmap string string) (f : form) (h : log) (user : string) :
  session !! "user" = Some user ->
  form_contains f "accessory_items" = true ->
  exists ctx text new h3,
    recommend E session f h = (Ok (RenderRecommendation ctx), h ++ new)
    /\ generate_accessories E (rc_query ctx)
         (VStr (Spec.gender (form_preferences f)))
         (form_getlist f "accessory_items") h3 = (Ok text, h ++ new)
    /\ rc_accessories_response ctx = Some text
    /\ (image_calls new = [] \/ image_calls new = [(rc_query ctx, 10)])
    /\ forall item, (item +:+ " accessory", 1) ∉ image_calls new.
Proof.
  intros Huser Hitems.
  destruct (recommend_run E session f h user Huser)
    as (q & h1 & urls & h2 & descr & h3 & acc & h4
        & Hrefine & Hscrape & Hdescr & Hacc & Hrun).
  rewrite Hitems in Hacc. destruct Hacc as (text & Hacc & ->).
  assert (H1 : exists l1, h1 = h ++ l1 /\ image_calls l1 = []).
  { destruct (key_set E).
    - rewrite refine_query_gemini_run in Hrefine. injection Hrefine as _ <-.
      eexists. split; reflexivity.
    - injection Hrefine as _ <-. exists []. now rewrite app_nil_r. }
  destruct H1 as (l1 & Hh1 & Hl1).
  assert (H2 : exists l2, h2 = h1 ++ l2
                /\ (image_calls l2 = [] \/ image_calls l2 = [(q, 10)])).
  { destruct (scrape_duckduckgo_images_run E q 5 h1) as (h2' & Heq & Hlog).
    rewrite Heq in Hscrape. injection Hscrape as _ <-.
    destruct Hlog as [-> | ->]; eexists; (split; [reflexivity|]); simpl; tauto. }
  destruct H2 as (l2 & Hh2 & Hl2).
  assert (Hh3 : h3 = h2 ++ [CGenerate (description_prompt
                                        (Spec.as_dict (form_preferences f))) None]).
  { rewrite generate_description_run in Hdescr. now injection Hdescr as _ <-. }
  assert (Hh4 : h4 = h3 ++ [CGenerate
                              (accessories_prompt q
                                 (VStr (Spec.gender (form_preferences f)))
                                 (form_getlist f "accessory_items")) None]).
  { pose proof Hacc as Hacc'. rewrite generate_accessories_run in Hacc'.
    now injection Hacc' as _ <-. }
  set (d := CGenerate (description_prompt (Spec.as_dict (form_preferences f))) None) in *.
  set (a := CGenerate (accessories_prompt q (VStr (Spec.gender (form_preferences f)))
                         (form_getlist f "accessory_items")) None) in *.
  assert (Hnew : h4 = h ++ (l1 ++ l2 ++ [d; a])).
  { rewrite Hh4, Hh3, Hh2, Hh1. rewrite <- !app_assoc. reflexivity. }
  rewrite Hnew in Hrun, Hacc.
  exists {| rc_query := q; rc_image_urls := urls; rc_description := descr;
            rc_preferences := json_dumps E (preference_items f);
            rc_accessories_response := Some text |}, text, (l1 ++ l2 ++ [d; a]), h3.
  split; [exact Hrun|]. split; [exact Hacc|]. split; [reflexivity|].
  assert (Hcalls : image_calls (l1 ++ l2 ++ [d; a]) = image_calls l2).
  { rewrite !image_calls_app, Hl1. simpl. now rewrite app_nil_r. }
  rewrite Hcalls. simpl. split; [exact Hl2|].
  intros item Hin. destruct Hl2 as [Hl2|Hl2]; rewrite Hl2 in Hin.
  - now apply elem_of_nil in Hin.
  - apply list_elem_of_singleton in Hin. discriminate.
Qed.

Lemma recommend_embeds_accessory_text_only_witness :
  logged_in !! "user" = Some "asha"
  /\ form_contains party_form "accessory_items" = true
  /\ exists ctx text,
       fst (recommend one_hit logged_in party_form []) = Ok (RenderRecommendation ctx)
       /\ rc_accessories_response ctx = Some text.
Proof.
  split; [reflexivity|]. split; [reflexivity|].
  destruct (recommend_embeds_accessory_text_only one_hit logged_in party_form []
              "asha" eq_refl eq_refl)
    as (ctx & text & new & h3 & Hrun & _ & Htext & _).
  exists ctx, text. split; [now rewrite Hrun | exact Htext].
Defined.

(** C3 as stated fails: with the item [watch] sent along, the search would
    find a picture for it, as the accessory route shows, but [recommend]
    makes the primary search only and embeds the text alone. *)
Lemma recommend_makes_no_accessory_image_lookup :
  fst (fetch_accessory_images one_hit (form_getlist party_form "accessory_items") [])
    = Ok {[ "watch" := VStr "https://img.example/1.png" ]}
  /\ image_calls (snd (recommend one_hit logged_in party_form []))
     = [("red elegant dress for party female", 10)]
  /\ (("watch accessory", 1)
        ∉ image_calls (snd (recommend one_hit logged_in party_form [])))
  /\ fst (recommend one_hit logged_in party_form [])
     = Ok (RenderRecommendation
             {| rc_query := "red elegant dress for party female";
                rc_image_urls := ["https://img.example/1.png"];
                rc_description := description_fallback;
                rc_preferences := "";
                rc_accessories_response := Some accessories_fallback |}).
Proof.
  split; [reflexivity|].
  assert (Hcalls : image_calls (snd (recommend one_hit logged_in party_form []))
                   = [("red elegant dress for party female", 10)])
    by (vm_compute; reflexivity).
  split; [exact Hcalls|]. split; [|vm_compute; reflexivity].
  rewrite Hcalls. intros Hin. apply list_elem_of_singleton in Hin. discriminate.
Qed.




(** C8.  Without the credential, and with the text generation raising on
    every call as it does without one, [recommend] returns normally for a
    user who is logged in: no refinement call is made, the images are
    searched with the raw query, which is also the query of the response;
    the description is the fallback sentence, and so is the accessory text
    when accessory items were sent. *)
Theorem recommend_without_credential (E : env) (session : gmap string string)
    (f : form) (h : log) (user : string) :
  session !! "user" = Some user ->
  key_set E = false ->
  (forall h' prompt c, exists e, generate_content E h' prompt c = Raise e) ->
  let raw_query := Spec.build_query (form_preferences f) in
  exists image_urls h2,
    scrape_duckduckgo_images E raw_query 5 h = (Ok image_urls, h2)
    /\ recommend E session f h
       = (Ok (RenderRecommendation
                {| rc_query := raw_query;
                   rc_image_urls := image_urls;
                   rc_description := description_fallback;
                   rc_preferences := json_dumps E (preference_items f);
                   rc_accessories_response :=
                     if form_contains f "accessory_items"
                     then Some accessories_fallback else None |}),
          h2 ++ [CGenerate (description_prompt (Spec.as_dict (form_preferences f))) None]
             ++ (if form_contains f "accessory_items"
                 then [CGenerate
                         (accessories_prompt raw_query
                            (VStr (Spec.gender (form_preferences f)))
                            (form_getlist f "accessory_items")) None]
                 else [])).
Proof.
  intros Huser Hkey Hdown raw_query.
  destruct (recommend_run E session f h user Huser)
    as (q & h1 & urls & h2 & descr & h3 & acc & h4
        & Hrefine & Hscrape & Hdescr & Hacc & Hrun).
  rewrite Hkey in Hrefine. injection Hrefine as <- <-.
  exists urls, h2. split; [exact Hscrape|].
  rewrite generate_description_run in Hdescr.
  destruct (Hdown h2 (description_prompt (Spec.as_dict (form_preferences f))) None)
    as [e He].
  rewrite He in Hdescr. injection Hdescr as <- <-.
  rewrite Hrun. destruct (form_contains f "accessory_items").
  - destruct Hacc as (text & Hacc & ->).
    rewrite generate_accessories_run in Hacc.
    match type of Hacc with
    | context [generate_content E ?l ?p ?c] => destruct (Hdown l p c) as [e' He']
    end.
    rewrite He' in Hacc. injection Hacc as <- <-.
    now rewrite <- app_assoc.
  - destruct Hacc as [-> ->]. now rewrite app_nil_r.
Qed.

Lemma recommend_without_credential_witness :
  logged_in !! "user" = Some "asha"
  /\ key_set one_hit = false
  /\ (forall (h' : log) (prompt : string) (c : option Z),
        exists e, generate_content one_hit h' prompt c = Raise e)
  /\ exists ctx,
       fst (recommend one_hit logged_in party_form []) = Ok (RenderRecommendation ctx)
       /\ rc_query ctx = "red elegant dress for party female"
       /\ rc_description ctx = description_fallback
       /\ rc_accessories_response ctx = Some accessories_fallback.
Proof.
  assert (Hdown : forall (h' : log) (prompt : string) (c : option Z),
            exists e, generate_content one_hit h' prompt c = Raise e)
    by (intros; eexists; reflexivity).
  split; [reflexivity|]. split; [reflexivity|]. split; [exact Hdown|].
  destruct (recommend_without_credential one_hit logged_in party_form [] "asha"
              eq_refl eq_refl Hdown) as (urls & h2 & _ & Hrun).
  rewrite Hrun. eexists. split; [reflexivity|]. repeat split.
Defined.

End RouteClaims.

(** * More properties of the code *)

(** ** Trimming *)

Section Trimming.
Import Py PyFacts.

Lemma headok_lstrip (s : string) : headok (lstrip s) = true.
Proof.
  induction s as [|c s IH]; [reflexivity|]. simpl.
  destruct (isspace c) eqn:Hc; [exact IH|]. simpl. now rewrite Hc.
Qed.

Lemma lstrip_headok (s : string) : headok s = true -> lstrip s = s.
Proof.
  destruct s as [|c s]; [reflexivity|]. simpl. intros Hc.
  apply negb_true_iff in Hc. now rewrite Hc.
Qed.

Lemma headok_rstrip (s : string) : headok s = true -> headok (rstrip s) = true.
Proof.
  destruct s as [|c s]; [reflexivity|]. simpl. intros Hc.
  apply negb_true_iff in Hc. rewrite Hc. simpl. now rewrite Hc.
Qed.

Lemma rstrip_idem (s : string) : rstrip (rstrip s) = rstrip s.
Proof.
  induction s as [|c s IH]; [reflexivity|]. simpl.
  destruct (isspace c && is_empty (rstrip s)) eqn:Hc; [reflexivity|].
  simpl. rewrite IH, Hc. reflexivity.
Qed.

Lemma strip_trimmed (s : string) : trimmed (strip s).
Proof.
  unfold trimmed, strip.
  rewrite (lstrip_headok (rstrip (lstrip s)))
    by apply headok_rstrip, headok_lstrip.
  apply rstrip_idem.
Qed.

(** A string that begins with a character that is not white space keeps it
    when stripped. *)
Lemma strip_headok_nonempty (s : string) :
  headok s = true -> is_empty s = false -> is_empty (strip s) = false.
Proof.
  intros Hh Hne. unfold strip. rewrite lstrip_headok by assumption.
  destruct s as [|c s]; [discriminate|]. simpl in *.
  apply negb_true_iff in Hh. now rewrite Hh.
Qed.

Lemma headok_trimmed (s : string) : trimmed s -> headok s = true.
Proof.
  unfold trimmed, strip. intros <-. apply headok_rstrip, headok_lstrip.
Qed.

Lemma join_nonempty_headok (l : list string) :
  Forall (fun x => headok x = true) l ->
  headok (Spec.join_nonempty l) = true
  /\ (Exists (fun x => is_empty x = false) l ->
      is_empty (Spec.join_nonempty l) = false).
Proof.
  induction 1 as [|x l Hx _ [IHh IHe]]; [split; [reflexivity | inversion 1]|].
  simpl. destruct (is_empty x) eqn:Hex.
  - split; [exact IHh|]. intros Hex'. apply IHe.
    inversion Hex' as [? ? Hx'|]; [congruence | assumption].
  - destruct (is_empty (Spec.join_nonempty l)) eqn:Hj.
    + split; [exact Hx | intros _; exact Hex].
    + destruct x as [|c x]; [discriminate|]. split; [exact Hx | reflexivity].
Qed.

(** X1.  The raw query [recommend] builds is empty exactly when the five
    fields of the form, stripped, are all empty. *)
Theorem raw_query_empty_iff (f : form) :
  let p := form_preferences f in
  construct_query (JObject (list_to_map (preference_items f))) = Ok ""
  <-> (Spec.color p = "" /\ Spec.gender p = "" /\ Spec.type p = ""
       /\ Spec.occasion p = "" /\ Spec.style p = "").
Proof.
  intros p.
  change (list_to_map (preference_items f)) with (Spec.as_dict p).
  rewrite construct_query_as_dict. split.
  - intros Hq. injection Hq as Hq.
    assert (Hall : Forall (fun x => headok x = true)
              [Spec.color p; Spec.style p; Spec.type p;
               Spec.occasion_phrase p; Spec.gender p]).
    { repeat constructor; try (apply headok_trimmed, strip_trimmed).
      unfold Spec.occasion_phrase. destruct (is_empty (Spec.occasion p)); reflexivity. }
    destruct (join_nonempty_headok _ Hall) as [Hh He].
    destruct (is_empty (Spec.join_nonempty
                [Spec.color p; Spec.style p; Spec.type p;
                 Spec.occasion_phrase p; Spec.gender p])) eqn:Hj.
    + assert (Hnone : ~ Exists (fun x => is_empty x = false)
                [Spec.color p; Spec.style p; Spec.type p;
                 Spec.occasion_phrase p; Spec.gender p])
        by (intros Hex; apply He in Hex; congruence).
      rewrite <- Forall_Exists_neg in Hnone.
      assert (Hempty : forall x, ~ is_empty x = false -> x = "")
        by (intros [|c x] Hx; [reflexivity | now destruct Hx]).
      inversion_clear Hnone as [|? ? Hc Hnone1].
      inversion_clear Hnone1 as [|? ? Hs Hnone2].
      inversion_clear Hnone2 as [|? ? Ht Hnone3].
      inversion_clear Hnone3 as [|? ? Ho Hnone4].
      inversion_clear Hnone4 as [|? ? Hg _].
      apply Hempty in Hc, Hs, Ht, Hg.
      assert (Hocc : Spec.occasion p = "").
      { unfold Spec.occasion_phrase in Ho.
        destruct (Spec.occasion p) as [|c o]; [reflexivity|].
        simpl in Ho. now destruct Ho. }
      now repeat split.
    + pose proof (strip_headok_nonempty _ Hh Hj) as Hne.
      unfold Spec.build_query in Hq. rewrite Hq in Hne. discriminate.
  - intros (Hc & Hg & Ht & Ho & Hs).
    unfold Spec.build_query, Spec.occasion_phrase.
    rewrite Hc, Hg, Ht, Ho, Hs. reflexivity.
Qed.

(** X2.  The description and the accessory text come back without white
    space at either end, whatever the service answers. *)
Theorem generated_texts_trimmed (E : env) (prefs : gmap string pyval)
    (outfit_desc : string) (gender : pyval) (items : list string) (h : log) :
  (exists s, fst (generate_description E prefs h) = Ok s /\ trimmed s)
  /\ (exists s, fst (generate_accessories E outfit_desc gender items h) = Ok s
                /\ trimmed s).
Proof.
  split.
  - rewrite generate_description_run. eexists. split; [reflexivity|].
    destruct (generate_content E h _ _) as [[[|c cs] [t|e]]|e];
      first [apply strip_trimmed | reflexivity].
  - rewrite generate_accessories_run. eexists. split; [reflexivity|].
    destruct (generate_content E h _ _) as [[cs [t|e]]|e];
      first [apply strip_trimmed | reflexivity].
Qed.

End Trimming.

(** ** Errors that are not recovered *)

Section Unrecovered.
Import Py.

Lemma as_strs_not_str (l : list pyval) (v : pyval) :
  v ∈ l -> (forall s, v <> VStr s) -> as_strs l = None.
Proof.
  intros Hin Hv. induction l as [|x l IH]; [now apply elem_of_nil in Hin|].
  apply elem_of_cons in Hin as [<- | Hin].
  - destruct v; try reflexivity. now destruct (Hv s).
  - destruct x; try reflexivity. simpl. now rewrite IH.
Qed.

(** X3.  A value under [color], [style], [type] or [gender] that is true
    and not a string makes [construct_query] raise [TypeError], whatever
    the other fields hold. *)
Theorem construct_query_type_error (d : gmap string pyval) (k : string) (v : pyval) :
  k ∈ ["color"; "style"; "type"; "gender"] ->
  d !! k = Some v ->
  truthy v = true ->
  (forall s, v <> VStr s) ->
  construct_query (JObject d) = Raise TypeError.
Proof.
  intros Hk Hd Ht Hv. rewrite construct_query_unfold. unfold join_objs.
  rewrite (as_strs_not_str _ v); [reflexivity| |exact Hv].
  apply list_elem_of_filter. split; [now rewrite Ht|].
  unfold phrases, field.
  repeat (apply elem_of_cons in Hk as [-> | Hk]);
    [ .. | now apply elem_of_nil in Hk ];
    rewrite Hd; simpl; repeat constructor.
Qed.

Lemma construct_query_type_error_witness :
  "color" ∈ ["color"; "style"; "type"; "gender"]
  /\ ({[ "color" := VInt 5 ]} : gmap string pyval) !! "color" = Some (VInt 5)
  /\ truthy (VInt 5) = true
  /\ construct_query (JObject {[ "color" := VInt 5 ]}) = Raise TypeError.
Proof.
  assert (Hk : "color" ∈ ["color"; "style"; "type"; "gender"])
    by (apply elem_of_cons; now left).
  split; [exact Hk|]. split; [reflexivity|]. split; [reflexivity|].
  apply (construct_query_type_error {[ "color" := VInt 5 ]} "color" (VInt 5) Hk);
    [reflexivity | reflexivity | discriminate].
Defined.

(** X4.  [accessories] recovers from [JSONDecodeError] only.  When
    [json.loads] raises another exception, or returns a value on which
    [construct_query] raises, that exception leaves the route and no
    service has been called; a value returned that is not an object gives
    [AttributeError]. *)
Theorem accessories_error_leaves_route (E : env) (f : form) (h : log) (e : exn) :
  (json_loads E (form_get f "preferences" "{}") = Raise e /\ e <> JSONDecodeError)
  \/ (exists v, json_loads E (form_get f "preferences" "{}") = Ok v
                /\ construct_query v = Raise e) ->
  accessories E f h = (Raise e, h)
  /\ (json_loads E (form_get f "preferences" "{}") = Ok JOther
      -> e = AttributeError).
Proof.
  intros Herr. split.
  - unfold accessories, bind, try_except_JSONDecodeError, loads, of_result.
    destruct Herr as [[Hloads Hne] | (v & Hloads & Hquery)]; rewrite Hloads.
    + destruct e; try reflexivity. now destruct Hne.
    + unfold ret. now rewrite Hquery.
  - intros Hother. destruct Herr as [[Hloads _] | (v & Hloads & Hquery)];
      rewrite Hother in Hloads; [discriminate|].
    injection Hloads as <-.
    change (@Raise string AttributeError = Raise e) in Hquery. congruence.
Qed.

Lemma accessories_error_leaves_route_witness :
  json_loads strict_codec
    (form_get [("preferences", long_number); ("items", "watch")] "preferences" "{}")
    = Raise ValueError
  /\ ValueError <> JSONDecodeError
  /\ accessories strict_codec [("preferences", long_number); ("items", "watch")] []
     = (Raise ValueError, [])
  /\ accessories strict_codec [("preferences", "[]"); ("items", "watch")] []
     = (Raise AttributeError, []).
Proof.
  assert (Hloads : json_loads strict_codec
            (form_get [("preferences", long_number); ("items", "watch")]
               "preferences" "{}") = Raise ValueError)
    by (vm_compute; reflexivity).
  split; [exact Hloads|]. split; [discriminate|]. split.
  - apply (accessories_error_leaves_route strict_codec
             [("preferences", long_number); ("items", "watch")] [] ValueError).
    left. split; [exact Hloads | discriminate].
  - apply (accessories_error_leaves_route strict_codec
             [("preferences", "[]"); ("items", "watch")] [] AttributeError).
    right. exists JOther. split; reflexivity.
Defined.

End Unrecovered.

(** ** More on the Image Search Client *)

Section MoreImageSearch.
Import Py.

Lemma scrape_duckduckgo_images_validated_witness :
  1 <= 5
  /\ (exists urls,
        fst (scrape_duckduckgo_images one_hit "red dress" 5 []) = Ok urls
        /\ "https://img.example/1.png" ∈ urls)
  /\ startswith "http" "https://img.example/1.png" = true.
Proof.
  assert (Hin : exists urls,
            fst (scrape_duckduckgo_images one_hit "red dress" 5 []) = Ok urls
            /\ "https://img.example/1.png" ∈ urls).
  { exists ["https://img.example/1.png"]. split; [vm_compute; reflexivity|].
    apply elem_of_cons. now left. }
  split; [lia|]. split; [exact Hin|].
  destruct (scrape_duckduckgo_images_validated one_hit "red dress" 5 []
              "https://img.example/1.png" ltac:(lia) Hin)
    as [Hph | (results & result & _ & _ & _ & Hhttp)];
    [discriminate Hph | exact Hhttp].
Defined.

(** X6.  With a cap of 0 or less the loop is left after the first record:
    the list returned is the URL of that record when it is valid and the
    empty list otherwise, also when the service raises; the placeholder is
    never returned. *)
Theorem scrape_duckduckgo_images_cap_nonpositive (E : env) (query : string)
    (n : Z) (h : log) :
  n <= 0 ->
  fst (scrape_duckduckgo_images E query n h) =
  Ok match search_results E query (n * 2) h with
     | Some results => valid_urls (take 1 results)
     | None => []
     end.
Proof.
  intros Hn.
  destruct (scrape_duckduckgo_images_run E query n h) as (h' & Hrun & _).
  rewrite Hrun. simpl. f_equal.
  assert (Hmul : list_mul get_placeholder_image n = [])
    by (unfold list_mul; replace (Z.to_nat n) with 0%nat by lia; reflexivity).
  rewrite Hmul.
  destruct (search_results E query (n * 2) h) as [[|result rest]|];
    [reflexivity| |reflexivity].
  assert (Hge : forall l : list string, len_ge l n = true)
    by (intros l; unfold len_ge; apply Z.leb_le; lia).
  unfold valid_urls. cbn [scrape_loop take omap list_omap].
  destruct (http_url (default VNone (result !! "image"))) as [s|];
    rewrite Hge; reflexivity.
Qed.

Lemma scrape_duckduckgo_images_cap_nonpositive_witness :
  0 <= 0
  /\ fst (scrape_duckduckgo_images offline "red dress" 0 []) = Ok [].
Proof.
  split; [lia|].
  rewrite (scrape_duckduckgo_images_cap_nonpositive offline "red dress" 0 [])
    by lia.
  reflexivity.
Defined.

Lemma store_first_lookup (item : string) (results : list record)
    (m : gmap string pyval) (k : string) (v : pyval) :
  store_first item results m !! k = Some v ->
  m !! k = Some v
  \/ (k = item /\ truthy v = true /\ exists result, result ∈ results /\ image_of result = v).
Proof.
  induction results as [|result rest IH]; simpl; [tauto|].
  destruct (truthy (default VNone (result !! "image"))) eqn:Ht.
  - destruct (decide (item = k)) as [->|Hne].
    + rewrite lookup_insert_eq. intros [= <-]. right.
      split; [reflexivity|]. split; [exact Ht|].
      exists result. split; [apply elem_of_cons; now left | reflexivity].
    + rewrite lookup_insert_ne by assumption. tauto.
  - intros Hk. destruct (IH Hk) as [Hm | (-> & Hv & result' & Hin & Himg)];
      [tauto|].
    right. split; [reflexivity|]. split; [exact Hv|].
    exists result'. split; [apply elem_of_cons; now right | exact Himg].
Qed.

Lemma fetch_loop_entries (E : env) (items : list string)
    (m m' : gmap string pyval) (h h' : log) (r : result unit)
    (k : string) (v : pyval) :
  fetch_loop E items (m, h) = (r, (m', h')) ->
  m' !! k = Some v ->
  m !! k = Some v \/ (k ∈ items /\ truthy v = true).
Proof.
  revert m h. induction items as [|item rest IH]; intros m h Hrun Hk.
  - unfold fetch_loop in Hrun. simpl in Hrun. unfold ret in Hrun.
    injection Hrun as _ <- _. tauto.
  - rewrite fetch_loop_cons in Hrun.
    destruct (ddgs_images E h _ _) as [results|e].
    + destruct (IH _ _ Hrun Hk) as [Hs | [Hin Hv]].
      * apply store_first_lookup in Hs as [Hs | (-> & Hv & _)]; [tauto|].
        right. split; [apply elem_of_cons; now left | exact Hv].
      * right. split; [apply elem_of_cons; now right | exact Hv].
    + injection Hrun as _ <- _. tauto.
Qed.

(** X7.  Every entry of the accessory image map stands under a requested
    item and holds a true value: no entry for a name that was not asked
    for, no empty URL and no [None]. *)
Theorem fetch_accessory_images_entries (E : env) (items : list string) (h : log) :
  exists m,
    fst (fetch_accessory_images E items h) = Ok m
    /\ forall k v, m !! k = Some v -> k ∈ items /\ truthy v = true.
Proof.
  rewrite fetch_accessory_images_run.
  destruct (DDGS_enter E h).
  - destruct (fetch_loop E items (∅, h ++ [CDDGS])) as [r [m h']] eqn:Hrun.
    exists m. split; [reflexivity|]. intros k v Hk.
    destruct (fetch_loop_entries E _ _ _ _ _ _ k v Hrun Hk) as [He | Hok];
      [|exact Hok].
    rewrite lookup_empty in He. discriminate.
  - exists ∅. split; [reflexivity|]. intros k v Hk.
    rewrite lookup_empty in Hk. discriminate.
Qed.

(** X8.  When [DDGS()] and every lookup return normally, the items are
    looked up once each, in their order, with the keywords
    ["<item> accessory"] and [max_results=1]. *)
Theorem fetch_accessory_images_calls (E : env) (items : list string) (h : log) :
  DDGS_enter E h = Ok tt ->
  (forall h' keywords, exists results, ddgs_images E h' keywords 1 = Ok results) ->
  snd (fetch_accessory_images E items h)
  = h ++ CDDGS :: ((fun item => CImages (item +:+ " accessory") 1) <$> items).
Proof.
  intros Henter Hok. rewrite fetch_accessory_images_run, Henter.
  assert (Hloop : forall l m h0,
            snd (snd (fetch_loop E l (m, h0)))
            = h0 ++ ((fun item => CImages (item +:+ " accessory") 1) <$> l)).
  { intros l. induction l as [|item rest IH]; intros m h0.
    - simpl. symmetry. apply app_nil_r.
    - rewrite fetch_loop_cons.
      destruct (Hok h0 (item +:+ " accessory")) as [results ->].
      rewrite IH, fmap_cons, <- app_assoc. reflexivity. }
  specialize (Hloop items ∅ (h ++ [CDDGS])).
  destruct (fetch_loop E items (∅, h ++ [CDDGS])) as [r [m h']].
  simpl in *. rewrite Hloop, <- app_assoc. reflexivity.
Qed.

Lemma fetch_accessory_images_calls_witness :
  DDGS_enter one_hit [] = Ok tt
  /\ (forall (h' : log) (keywords : string),
        exists results, ddgs_images one_hit h' keywords 1 = Ok results)
  /\ snd (fetch_accessory_images one_hit ["watch"; "belt"] [])
     = [CDDGS; CImages "watch accessory" 1; CImages "belt accessory" 1].
Proof.
  assert (Hok : forall (h' : log) (keywords : string),
            exists results, ddgs_images one_hit h' keywords 1 = Ok results)
    by (intros; eexists; reflexivity).
  split; [reflexivity|]. split; [exact Hok|].
  rewrite (fetch_accessory_images_calls one_hit ["watch"; "belt"] [] eq_refl Hok).
  reflexivity.
Defined.

Lemma store_first_none (item : string) (results : list record)
    (m : gmap string pyval) :
  Forall (fun result => truthy (image_of result) = false) results ->
  store_first item results m = m.
Proof.
  induction 1 as [|result rest Hr _ IH]; [reflexivity|]. simpl.
  unfold image_of in Hr. now rewrite Hr.
Qed.

(** X9.  A lookup that returns normally without a record whose [image] is
    true leaves the map as it is and the loop goes on with the next item:
    unlike an error, finding nothing does not end the batch. *)
Theorem fetch_loop_nothing_found (E : env) (item : string) (rest : list string)
    (m : gmap string pyval) (h : log) (results : list record) :
  ddgs_images E h (item +:+ " accessory") 1 = Ok results ->
  Forall (fun result => truthy (image_of result) = false) results ->
  fetch_loop E (item :: rest) (m, h)
  = fetch_loop E rest (m, h ++ [CImages (item +:+ " accessory") 1]).
Proof.
  intros Hresults Hnone. rewrite fetch_loop_cons, Hresults.
  now rewrite store_first_none.
Qed.

Lemma fetch_loop_nothing_found_witness :
  ddgs_images no_watch [CDDGS] ("watch" +:+ " accessory") 1
    = Ok [ {[ "title" := VStr "no image" ]}; {[ "image" := VStr "" ]} ]
  /\ fetch_loop no_watch ["watch"; "belt"] (∅, [CDDGS])
     = fetch_loop no_watch ["belt"] (∅, [CDDGS] ++ [CImages ("watch" +:+ " accessory") 1])
  /\ fst (fetch_accessory_images no_watch ["watch"; "belt"] [])
     = Ok {[ "belt" := VStr "https://img.example/1.png" ]}.
Proof.
  split; [reflexivity|]. split; [|vm_compute; reflexivity].
  apply (fetch_loop_nothing_found no_watch "watch" ["belt"] ∅ [CDDGS]
           [ {[ "title" := VStr "no image" ]}; {[ "image" := VStr "" ]} ]);
    [reflexivity | repeat constructor].
Defined.

End MoreImageSearch.

(** ** More on the routes of the recommender *)

Section MoreRoutes.
Import Py PyFacts.

Lemma scrape_duckduckgo_images_log (E : env) (query : string) (n : Z) (h : log) :
  snd (scrape_duckduckgo_images E query n h)
  = h ++ CDDGS :: match DDGS_enter E h with
                  | Ok _ => [CImages query (n * 2)]
                  | Raise _ => []
                  end.
Proof.
  unfold scrape_duckduckgo_images, try_except, bind, DDGS, images, ret.
  destruct (DDGS_enter E h) as [[]|e]; simpl; [|reflexivity].
  destruct (ddgs_images E _ _ _) as [results|e]; simpl;
    now rewrite <- List.app_assoc.
Qed.

Lemma scrape_duckduckgo_images_bounds (E : env) (query : string) (n : Z) (h : log) :
  1 <= n ->
  exists urls,
    fst (scrape_duckduckgo_images E query n h) = Ok urls
    /\ (1 <= length urls <= Z.to_nat n)%nat.
Proof.
  intros Hn. rewrite scrape_duckduckgo_images_urls by assumption.
  eexists. split; [reflexivity|].
  assert (Hph : (1 <= length (replicate (Z.to_nat n) get_placeholder_image)
                 <= Z.to_nat n)%nat)
    by (rewrite length_replicate; lia).
  destruct (search_results E query (n * 2) h) as [results|]; [|exact Hph].
  destruct (valid_urls results) as [|v vs]; [exact Hph|].
  destruct (Z.to_nat n) as [|k] eqn:Hk; [lia|]. simpl.
  rewrite length_take. lia.
Qed.

Lemma refine_query_gemini_nonempty (E : env) (raw_query : string) (h : log) :
  raw_query <> "" ->
  exists s, fst (refine_query_gemini E raw_query h) = Ok s /\ s <> "".
Proof.
  intros Hraw. rewrite refine_query_gemini_run. eexists. split; [reflexivity|].
  destruct (generate_content E h _ _) as [[[|c cs] [t|e]]|e];
    cbn [candidates text]; try assumption.
  unfold str_or.
  destruct (is_empty (join " " (take 8 (split (strip t))))) eqn:He;
    cbv beta iota; [exact Hraw|].
  intros Heq. rewrite Heq in He. discriminate.
Qed.

(** X10.  For a user who is logged in [recommend] returns the recommendation
    page whatever the two services do: with one to five image URLs, with a
    query that is not empty when the raw query is not, and with an accessory
    text exactly when the form has accessory items. *)
Theorem recommend_renders (E : env) (session : gmap string string) (f : form)
    (h : log) (user : string) :
  session !! "user" = Some user ->
  exists ctx h',
    recommend E session f h = (Ok (RenderRecommendation ctx), h')
    /\ (1 <= length (rc_image_urls ctx) <= 5)%nat
    /\ (Spec.build_query (form_preferences f) <> "" -> rc_query ctx <> "")
    /\ (rc_accessories_response ctx = None
        <-> form_contains f "accessory_items" = false).
Proof.
  intros Huser.
  destruct (recommend_run E session f h user Huser)
    as (q & h1 & urls & h2 & descr & h3 & acc & h4
        & Hrefine & Hscrape & Hdescr & Hacc & Hrun).
  eexists _, h4. split; [exact Hrun|]. simpl. split; [|split].
  - destruct (scrape_duckduckgo_images_bounds E q 5 h1) as (urls' & Hu & Hlen);
      [lia|].
    rewrite Hscrape in Hu. injection Hu as <-. exact Hlen.
  - intros Hraw. destruct (key_set E).
    + destruct (refine_query_gemini_nonempty E _ h Hraw) as (s & Hs & Hne).
      rewrite Hrefine in Hs. injection Hs as <-. exact Hne.
    + injection Hrefine as <- _. exact Hraw.
  - destruct (form_contains f "accessory_items").
    + destruct Hacc as (text & _ & ->). split; discriminate.
    + destruct Hacc as [-> _]. split; reflexivity.
Qed.

Lemma recommend_renders_witness :
  logged_in !! "user" = Some "asha"
  /\ exists ctx h',
       recommend offline logged_in party_form [] = (Ok (RenderRecommendation ctx), h')
       /\ (1 <= length (rc_image_urls ctx) <= 5)%nat.
Proof.
  split; [reflexivity|].
  destruct (recommend_renders offline logged_in party_form [] "asha" eq_refl)
    as (ctx & h' & Hrun & Hlen & _).
  exists ctx, h'. split; [exact Hrun | exact Hlen].
Defined.

(** X11.  The calls [recommend] makes for a user who is logged in, in their
    order: the refinement when the key is set, [DDGS()], the image search
    with [max_results=10] unless [DDGS()] raised, the description, and the
    accessory text when the form has accessory items.  Nothing is called
    twice and nothing is retried. *)
Theorem recommend_calls (E : env) (session : gmap string string) (f : form)
    (h : log) (user : string) :
  session !! "user" = Some user ->
  let raw_query := Spec.build_query (form_preferences f) in
  let refinement :=
    if key_set E then [CGenerate (refine_prompt raw_query) (Some 60)] else [] in
  exists ctx,
    fst (recommend E session f h) = Ok (RenderRecommendation ctx)
    /\ snd (recommend E session f h)
       = (h ++ refinement)
         ++ CDDGS :: match DDGS_enter E (h ++ refinement) with
                     | Ok _ => [CImages (rc_query ctx) 10]
                     | Raise _ => []
                     end
         ++ [CGenerate (description_prompt (Spec.as_dict (form_preferences f))) None]
         ++ (if form_contains f "accessory_items"
             then [CGenerate
                     (accessories_prompt (rc_query ctx)
                        (VStr (Spec.gender (form_preferences f)))
                        (form_getlist f "accessory_items")) None]
             else []).
Proof.
  intros Huser raw_query refinement.
  destruct (recommend_run E session f h user Huser)
    as (q & h1 & urls & h2 & descr & h3 & acc & h4
        & Hrefine & Hscrape & Hdescr & Hacc & Hrun).
  rewrite Hrun. eexists. split; [reflexivity|]. simpl.
  assert (Hh1 : h1 = h ++ refinement).
  { subst refinement. destruct (key_set E).
    - rewrite refine_query_gemini_run in Hrefine. now injection Hrefine as _ <-.
    - injection Hrefine as _ <-. now rewrite app_nil_r. }
  assert (Hh2 : h2 = h1 ++ CDDGS :: match DDGS_enter E h1 with
                                    | Ok _ => [CImages q 10]
                                    | Raise _ => []
                                    end).
  { pose proof (scrape_duckduckgo_images_log E q 5 h1) as Hlog.
    rewrite Hscrape in Hlog. exact Hlog. }
  assert (Hh3 : h3 = h2 ++ [CGenerate (description_prompt
                                        (Spec.as_dict (form_preferences f))) None]).
  { rewrite generate_description_run in Hdescr. now injection Hdescr as _ <-. }
  assert (Hh4 : h4 = h3 ++ (if form_contains f "accessory_items"
             then [CGenerate
                     (accessories_prompt q
                        (VStr (Spec.gender (form_preferences f)))
                        (form_getlist f "accessory_items")) None]
             else [])).
  { destruct (form_contains f "accessory_items").
    - destruct Hacc as (text & Hacc & _).
      rewrite generate_accessories_run in Hacc. now injection Hacc as _ <-.
    - destruct Hacc as [_ ->]. now rewrite app_nil_r. }
  rewrite Hh4, Hh3, Hh2, Hh1.
  rewrite <- !List.app_assoc. reflexivity.
Qed.

Lemma recommend_calls_witness :
  logged_in !! "user" = Some "asha"
  /\ image_calls (snd (recommend one_hit logged_in party_form []))
     = [("red elegant dress for party female", 10)]
  /\ length (snd (recommend one_hit logged_in party_form [])) = 4%nat.
Proof.
  split; [reflexivity|].
  destruct (recommend_calls one_hit logged_in party_form [] "asha" eq_refl)
    as (ctx & Hctx & Hlog).
  rewrite Hlog.
  assert (Hq : rc_query ctx = "red elegant dress for party female").
  { assert (Hfst : fst (recommend one_hit logged_in party_form [])
                   = Ok (RenderRecommendation
                           {| rc_query := "red elegant dress for party female";
                              rc_image_urls := ["https://img.example/1.png"];
                              rc_description := description_fallback;
                              rc_preferences := "";
                              rc_accessories_response := Some accessories_fallback |}))
      by (vm_compute; reflexivity).
    rewrite Hfst in Hctx. now injection Hctx as <-. }
  rewrite Hq. split; reflexivity.
Defined.

(** X12.  The accessory phase rebuilds the query of the first phase.  When
    [/accessories] receives as [preferences] what [recommend] put into its
    page, and [json.loads] gives back the mapping that [json.dumps] was
    given, the outfit is the raw query of [recommend], and the accessory
    text is generated for the stripped gender of the form, also when that is
    empty: the default ["unisex"] is not used on this path. *)
Theorem accessories_rebuilds_raw_query (E : env) (f f2 : form) (h : log) :
  form_get f2 "preferences" "{}" = json_dumps E (preference_items f) ->
  json_loads E (json_dumps E (preference_items f))
    = Ok (JObject (list_to_map (preference_items f))) ->
  let raw_query := Spec.build_query (form_preferences f) in
  exists text h1 images h2,
    generate_accessories E raw_query (VStr (Spec.gender (form_preferences f)))
      (form_getlist f2 "items") h = (Ok text, h1)
    /\ fetch_accessory_images E (form_getlist f2 "items") h1 = (Ok images, h2)
    /\ accessories E f2 h
       = (Ok (RenderAccessories
                {| ac_outfit := raw_query;
                   ac_accessories := text;
                   ac_accessory_images := images |}), h2).
Proof.
  intros Hform Hcodec raw_query.
  destruct (accessories_run E f2 h (Spec.as_dict (form_preferences f)) raw_query)
    as (text & h1 & images & h2 & Htext & Himages & Hrun).
  - unfold try_except_JSONDecodeError, loads, of_result. rewrite Hform, Hcodec.
    reflexivity.
  - apply construct_query_as_dict.
  - replace (Spec.as_dict (form_preferences f) !! "gender")
      with (Some (VStr (Spec.gender (form_preferences f)))) in Htext
      by reflexivity.
    exists text, h1, images, h2.
    split; [exact Htext|]. split; [exact Himages | exact Hrun].
Qed.

Lemma accessories_rebuilds_raw_query_witness :
  form_get [("preferences", "party"); ("items", "watch")] "preferences" "{}"
    = json_dumps party_codec (preference_items party_form)
  /\ json_loads party_codec (json_dumps party_codec (preference_items party_form))
     = Ok (JObject (list_to_map (preference_items party_form)))
  /\ exists ctx,
       fst (accessories party_codec [("preferences", "party"); ("items", "watch")] [])
         = Ok (RenderAccessories ctx)
       /\ ac_outfit ctx = "red elegant dress for party female".
Proof.
  assert (Hcodec : json_loads party_codec
                     (json_dumps party_codec (preference_items party_form))
                   = Ok (JObject (list_to_map (preference_items party_form))))
    by (vm_compute; reflexivity).
  split; [reflexivity|]. split; [exact Hcodec|].
  destruct (accessories_rebuilds_raw_query party_codec party_form
              [("preferences", "party"); ("items", "watch")] [] eq_refl Hcodec)
    as (text & h1 & images & h2 & _ & _ & Hrun).
  rewrite Hrun. eexists. split; [reflexivity|]. vm_compute. reflexivity.
Defined.

(** X13.  The [recommend] of [appp.py] returns the recommendation page for
    every form, and it is the [recommend] of [app.py] without the session
    gate: for a user who is logged in both give the same page and make the
    same calls. *)
Theorem appp_recommend_agrees (E : env) (f : form) (h : log) :
  (exists ctx h', Appp.recommend E f h = (Ok (RenderRecommendation ctx), h'))
  /\ forall (session : gmap string string) (user : string),
       session !! "user" = Some user ->
       recommend E session f h = Appp.recommend E f h.
Proof.
  assert (Hsame : forall (session : gmap string string) (user : string),
            session !! "user" = Some user ->
            recommend E session f h = Appp.recommend E f h).
  { intros session user Huser. unfold recommend, Appp.recommend.
    now rewrite Huser. }
  split; [|exact Hsame].
  rewrite <- (Hsame {[ "user" := "" ]} "") by apply lookup_singleton_eq.
  destruct (recommend_run E {[ "user" := "" ]} f h "")
    as (q & h1 & urls & h2 & descr & h3 & acc & h4 & _ & _ & _ & _ & Hrun);
    [apply lookup_singleton_eq | eauto].
Qed.

End MoreRoutes.

(** ** Accounts and sessions *)

Section AccountsFacts.

Lemma form_index_credentials (username password : string) :
  form_index (credentials username password) "username" = Ok username
  /\ form_index (credentials username password) "password" = Ok password.
Proof. split; reflexivity. Qed.

(** What a POST to [/login] does, by the stored password. *)
Lemma login_post_run (f : form) (s : site) (username password : string) :
  form_index f "username" = Ok username ->
  form_index f "password" = Ok password ->
  login "POST" f s =
  if decide (st_users s !! username = Some password)
  then (Ok (RedirectTo "home"),
        {| st_users := st_users s;
           st_session := <["user" := username]> (st_session s);
           st_flashes := st_flashes s |})
  else (Ok (Template "login.html" []),
        {| st_users := st_users s;
           st_session := st_session s;
           st_flashes := st_flashes s ++ [("Invalid credentials", "danger")] |}).
Proof.
  intros Hu Hp. unfold login. simpl.
  unfold bind, of_result, get_site. rewrite Hu, Hp.
  destruct (st_users s !! username) as [stored|] eqn:Hs.
  - destruct (decide (stored = password)) as [->|Hne].
    + rewrite decide_True by reflexivity. reflexivity.
    + rewrite decide_False by congruence. reflexivity.
  - rewrite decide_False by discriminate. reflexivity.
Qed.

(** What a POST to [/register] does, by whether the name is taken. *)
Lemma register_post_run (f : form) (s : site) (username password : string) :
  form_index f "username" = Ok username ->
  form_index f "password" = Ok password ->
  register "POST" f s =
  match st_users s !! username with
  | Some _ =>
      (Ok (Template "register.html" []),
       {| st_users := st_users s;
          st_session := st_session s;
          st_flashes := st_flashes s ++ [("Username already exists", "warning")] |})
  | None =>
      (Ok (RedirectTo "login"),
       {| st_users := <[username := password]> (st_users s);
          st_session := st_session s;
          st_flashes := st_flashes s
                        ++ [("Registration successful! Please log in.", "success")] |})
  end.
Proof.
  intros Hu Hp. unfold register. simpl.
  unfold bind, of_result, get_site. rewrite Hu, Hp.
  destruct (st_users s !! username); reflexivity.
Qed.

(** X14.  Registering a free name and logging in with the same name and
    password works: the first redirects to the login page, the second to the
    home page with the user in the session, and from then on [/] shows the
    index page and [/recommend] the recommendation page. *)
Theorem register_then_login (s : site) (username password : string) :
  st_users s !! username = None ->
  exists s1 s2,
    register "POST" (credentials username password) s = (Ok (RedirectTo "login"), s1)
    /\ login "POST" (credentials username password) s1 = (Ok (RedirectTo "home"), s2)
    /\ st_session s2 !! "user" = Some username
    /\ fst (home s2) = Ok (Template "index.html" [])
    /\ forall (E : env) (f : form) (h : log),
         exists ctx h',
           recommend E (st_session s2) f h = (Ok (RenderRecommendation ctx), h').
Proof.
  intros Hfree.
  destruct (form_index_credentials username password) as [Hu Hp].
  rewrite (register_post_run _ s username password Hu Hp), Hfree.
  eexists _, _. split; [reflexivity|].
  rewrite (login_post_run _ _ username password Hu Hp). simpl.
  rewrite decide_True by apply lookup_insert_eq.
  split; [reflexivity|]. simpl.
  split; [apply lookup_insert_eq|].
  split.
  - unfold home, bind, get_site. simpl. now rewrite lookup_insert_eq.
  - intros E f h.
    destruct (recommend_run E (<["user" := username]> (st_session s)) f h username)
      as (q & h1 & urls & h2 & descr & h3 & acc & h4 & _ & _ & _ & _ & Hrun);
      [apply lookup_insert_eq | eauto].
Qed.

Lemma register_then_login_witness :
  st_users fresh_site !! "asha" = None
  /\ exists s1 s2,
       register "POST" (credentials "asha" "s3cret") fresh_site
         = (Ok (RedirectTo "login"), s1)
       /\ login "POST" (credentials "asha" "s3cret") s1 = (Ok (RedirectTo "home"), s2)
       /\ st_session s2 !! "user" = Some "asha".
Proof.
  split; [reflexivity|].
  destruct (register_then_login fresh_site "asha" "s3cret" eq_refl)
    as (s1 & s2 & Hreg & Hlog & Hsess & _).
  exists s1, s2. split; [exact Hreg|]. split; [exact Hlog | exact Hsess].
Defined.





(** X17.  [/logout] takes the user out of the session and leaves the rest
    of the session and the accounts alone; after it [/] and [/recommend]
    redirect to the login page, and [/recommend] calls no service. *)
Theorem logout_closes_session (s : site) :
  exists s',
    logout s = (Ok (RedirectTo "login"), s')
    /\ st_session s' !! "user" = None
    /\ (forall k, k <> "user" -> st_session s' !! k = st_session s !! k)
    /\ st_users s' = st_users s
    /\ fst (home s') = Ok (RedirectTo "login")
    /\ forall (E : env) (f : form) (h : log),
         recommend E (st_session s') f h = (Ok (Redirect "login"), h).
Proof.
  eexists. split; [reflexivity|]. simpl.
  split; [apply lookup_delete_eq|].
  split; [intros k Hk; now apply lookup_delete_ne|].
  split; [reflexivity|]. split.
  - unfold home, bind, get_site. simpl. now rewrite lookup_delete_eq.
  - intros E f h. unfold recommend. now rewrite lookup_delete_eq.
Qed.

(** X18.  A POST to [/login] or [/register] without a [username] or
    without a [password] raises [KeyError] and changes nothing: no account,
    no session entry, no message. *)
Theorem post_without_field (f : form) (s : site) :
  form_index f "username" = Raise KeyError
  \/ form_index f "password" = Raise KeyError ->
  login "POST" f s = (Raise KeyError, s)
  /\ register "POST" f s = (Raise KeyError, s).
Proof.
  intros Hmissing.
  assert (Hname : forall e, form_index f "username" = Raise e -> e = KeyError).
  { unfold form_index. destruct (form_getlist f "username"); congruence. }
  unfold login, register. simpl. unfold bind, of_result.
  destruct Hmissing as [Hu | Hp].
  - rewrite Hu. split; reflexivity.
  - rewrite Hp. destruct (form_index f "username") as [username|e];
      [split; reflexivity|].
    rewrite (Hname e eq_refl). split; reflexivity.
Qed.

Lemma post_without_field_witness :
  form_index [("username", "asha")] "password" = Raise KeyError
  /\ register "POST" [("username", "asha")] fresh_site = (Raise KeyError, fresh_site).
Proof.
  split; [reflexivity|].
  apply (post_without_field [("username", "asha")] fresh_site).
  right. reflexivity.
Defined.

End AccountsFacts.

(** ** When a generated text is empty *)

Section EmptyTexts.
Import Py.

(** X20.  The description is the empty string exactly when the service
    answered with candidates and a text that is blank; the accessory text is
    the empty string exactly when the service answered with a text that is
    blank.  In every other case each is a text that is not empty, generated
    or fallback. *)
Theorem generated_text_empty_iff (E : env) (prefs : gmap string pyval)
    (outfit_desc : string) (gender : pyval) (items : list string) (h : log) :
  (fst (generate_description E prefs h) = Ok ""
   <-> exists r t,
         generate_content E h (description_prompt prefs) None = Ok r
         /\ candidates r <> [] /\ text r = Ok t /\ strip t = "")
  /\ (fst (generate_accessories E outfit_desc gender items h) = Ok ""
      <-> exists r t,
            generate_content E h (accessories_prompt outfit_desc gender items) None
              = Ok r
            /\ text r = Ok t /\ strip t = "").
Proof.
  split.
  - rewrite generate_description_run. simpl.
    destruct (generate_content E h _ _) as [[[|c cs] [t|e]]|e];
      cbn [candidates text]; split.
    all: try (intros Hs; discriminate Hs).
    all: try (intros (r & t' & Hr & Hc & Ht & Hs); try discriminate Hr;
              injection Hr as <-; cbn [candidates text] in *;
              first [now destruct Hc | discriminate Ht | idtac]).
    + intros [= Hs]. eexists _, t. repeat split; [discriminate | exact Hs].
    + injection Ht as <-. now rewrite Hs.
  - rewrite generate_accessories_run. simpl.
    destruct (generate_content E h _ _) as [[cs [t|e]]|e];
      cbn [text]; split.
    all: try (intros Hs; discriminate Hs).
    all: try (intros (r & t' & Hr & Ht & Hs); try discriminate Hr;
              injection Hr as <-; cbn [text] in *;
              first [discriminate Ht | idtac]).
    + intros [= Hs]. eexists _, t. repeat split. exact Hs.
    + injection Ht as <-. now rewrite Hs.
Qed.

(** In [recommend] every key of the preferences is bound, to the stripped
    field of the form. *)
Lemma get_or_preference_items (f : form) (k : string) :
  k ∈ ["color"; "gender"; "type"; "occasion"; "style"] ->
  get_or (list_to_map (preference_items f)) k "any"
  = VStr (strip (form_get f k "")).
Proof.
  intros Hk.
  repeat (apply elem_of_cons in Hk as [-> | Hk]);
    [ .. | now apply elem_of_nil in Hk ]; reflexivity.
Qed.

(** X21.  The description call of [recommend], for a user who is logged in,
    has the following prompt: each of the five places holds the stripped
    field of the form, so a field left empty gives an empty place, and the
    default ["any"] is never taken. *)
Theorem recommend_description_prompt (E : env) (session : gmap string string)
    (f : form) (h : log) (user : string) :
  session !! "user" = Some user ->
  let p := form_preferences f in
  let prompt :=
    "Generate a 4-5 line fashion description based on the following preferences:"
    +:+ nl
    +:+ "Color: " +:+ Spec.color p
    +:+ ", Gender: " +:+ Spec.gender p
    +:+ ", Type: " +:+ Spec.type p
    +:+ ", Occasion: " +:+ Spec.occasion p
    +:+ ", Style: " +:+ Spec.style p
    +:+ "." +:+ nl +:+ "Write a friendly paragraph, no bullets." in
  description_prompt (list_to_map (preference_items f)) = prompt
  /\ CGenerate prompt None ∈ snd (recommend E session f h)
  /\ forall prompt', CGenerate prompt' None ∈ snd (recommend E session f h) ->
       CGenerate prompt' None ∈ h
       \/ prompt' = prompt
       \/ exists q, prompt' = accessories_prompt q (VStr (Spec.gender p))
                               (form_getlist f "accessory_items").
Proof.
  intros Huser p prompt.
  assert (Hprompt : description_prompt (list_to_map (preference_items f)) = prompt).
  { unfold description_prompt.
    rewrite !get_or_preference_items
      by (repeat first [apply elem_of_cons; left; reflexivity
                       | apply elem_of_cons; right]).
    reflexivity. }
  split; [exact Hprompt|].
  destruct (recommend_run E session f h user Huser)
    as (q & h1 & urls & h2 & descr & h3 & acc & h4
        & Hrefine & Hscrape & Hdescr & Hacc & Hrun).
  rewrite Hrun. simpl.
  change (Spec.as_dict (form_preferences f))
    with (list_to_map (preference_items f) : gmap string pyval) in Hdescr.
  rewrite generate_description_run, Hprompt in Hdescr.
  injection Hdescr as _ Hh3.
  assert (Hh1 : forall c, c ∈ h1 -> c ∈ h \/ exists r, c = CGenerate r (Some 60)).
  { intros c Hc. destruct (key_set E).
    - rewrite refine_query_gemini_run in Hrefine. injection Hrefine as _ <-.
      apply elem_of_app in Hc as [Hc|Hc]; [tauto|].
      apply list_elem_of_singleton in Hc. eauto.
    - injection Hrefine as _ <-. tauto. }
  assert (Hh2 : forall c, c ∈ h2 -> c ∈ h1 \/ c = CDDGS \/ exists k n, c = CImages k n).
  { intros c Hc.
    pose proof (scrape_duckduckgo_images_log E q 5 h1) as Hlog.
    rewrite Hscrape in Hlog. simpl in Hlog. rewrite Hlog in Hc.
    apply elem_of_app in Hc as [Hc|Hc]; [tauto|].
    apply elem_of_cons in Hc as [->|Hc]; [tauto|].
    destruct (DDGS_enter E h1).
    - apply list_elem_of_singleton in Hc. eauto.
    - now apply elem_of_nil in Hc. }
  assert (Hh4 : h4 = h3 \/ exists q', h4 = h3 ++ [CGenerate
                   (accessories_prompt q' (VStr (Spec.gender p))
                      (form_getlist f "accessory_items")) None]).
  { destruct (form_contains f "accessory_items").
    - destruct Hacc as (text & Hacc & _).
      rewrite generate_accessories_run in Hacc. injection Hacc as _ <-. eauto.
    - destruct Hacc as [_ ->]. tauto. }
  split.
  - destruct Hh4 as [-> | (q' & ->)]; rewrite <- Hh3;
      rewrite ?elem_of_app, !list_elem_of_singleton; tauto.
  - intros prompt' Hin.
    assert (Hin3 : CGenerate prompt' None ∈ h3
                   \/ exists q', prompt' = accessories_prompt q'
                                   (VStr (Spec.gender p))
                                   (form_getlist f "accessory_items")).
    { destruct Hh4 as [-> | (q' & ->)]; [tauto|].
      apply elem_of_app in Hin as [Hin|Hin]; [tauto|].
      apply list_elem_of_singleton in Hin. injection Hin as ->. eauto. }
    destruct Hin3 as [Hin3|Hacc']; [|tauto].
    rewrite <- Hh3 in Hin3. apply elem_of_app in Hin3 as [Hin2|Hd].
    + destruct (Hh2 _ Hin2) as [Hin1 | [Hc | (k & n & Hc)]]; try discriminate.
      destruct (Hh1 _ Hin1) as [Hh | (r & Hc)]; [tauto | discriminate].
    + apply list_elem_of_singleton in Hd. injection Hd as ->. tauto.
Qed.

Lemma recommend_description_prompt_witness :
  logged_in !! "user" = Some "asha"
  /\ CGenerate
       ("Generate a 4-5 line fashion description based on the following preferences:"
        +:+ nl +:+ "Color: red, Gender: , Type: , Occasion: , Style: ."
        +:+ nl +:+ "Write a friendly paragraph, no bullets.") None
     ∈ snd (recommend offline logged_in [("color", " red ")] []).
Proof.
  split; [reflexivity|].
  destruct (recommend_description_prompt offline logged_in [("color", " red ")] []
              "asha" eq_refl) as (_ & Hin & _).
  exact Hin.
Defined.

End EmptyTexts.
